(** * Element data records of [fsf/elements_dataclasses.py]

    A shallow embedding of the element attribute records (identifier,
    position, aperture, dipole edge, multipole strengths) together with the
    properties their constructors and setters maintain.

    Python floats are kept behind the interface [PyFloat]; its instance is
    IEEE-754 binary64, the arithmetic CPython uses, through the executable
    specification [SpecFloat]. *)

From Stdlib Require Import ZArith QArith Qpower Qfield String List Lia.
From Stdlib Require Import Floats.SpecFloat.
From stdpp Require Import base option list strings gmap.

Set Default Proof Using "Type".
Local Open Scope string_scope.
Local Open Scope list_scope.

(** ** Python values and exceptions *)

(** The operations the module applies to floats. *)
Class PyFloat (num : Type) := {
  zero : num;                      (* the literal [0.0] *)
  two : num;                       (* the literal [2.] *)
  add : num -> num -> num;         (* [x + y] *)
  sub : num -> num -> num;         (* [x - y] *)
  div : num -> num -> num;         (* [x / y], only used with [y = 2.] *)
  eqb : num -> num -> bool;        (* [x == y] *)
  eqb_zero : eqb zero zero = true
}.

Inductive exn : Type :=
  | AssertionError
  | AttributeError
  | IndexError
  | KeyError
  | TypeError.

Inductive result (A : Type) : Type :=
  | Ok (a : A)
  | Raise (e : exn).
Arguments Ok {A} a.
Arguments Raise {A} e.

#[export] Instance result_ret : MRet result := fun _ a => Ok a.
#[export] Instance result_bind : MBind result := fun _ _ k r =>
  match r with
  | Ok a => k a
  | Raise e => Raise e
  end.
#[export] Instance result_throw : MThrow exn result := fun _ e => Raise e.

(** [assert c] *)
Definition assert (c : bool) : result unit :=
  if c then Ok tt else Raise AssertionError.

(** A value held by a property-backed attribute or a list cell: a float, or
    the [property] object itself, which is what a dataclass field shadowed by
    a property of the same name gets as its default. *)
Inductive pyval (num : Type) : Type :=
  | Num (x : num)
  | Property.
Arguments Num {num} x.
Arguments Property {num}.

(** What [getattr] returns for the attributes listed in the
    [INIT_PROPERTIES] of the records below. *)
Inductive pyobj (num : Type) : Type :=
  | Float (v : pyval num)
  | Str (s : string)
  | OptInt (z : option Z)
  | Array (l : list (pyval num)).
Arguments Float {num} v.
Arguments Str {num} s.
Arguments OptInt {num} z.
Arguments Array {num} l.

Section Values.
Context {num : Type} `{PyFloat num}.

(** [isinstance(v, property)] *)
Definition is_property (v : pyval num) : bool :=
  match v with
  | Property => true
  | Num _ => false
  end.

(** [v != 0.]: the property object is not equal to a float. *)
Definition nonzero (v : pyval num) : bool :=
  match v with
  | Num x => negb (eqb x zero)
  | Property => true
  end.

(** Binary arithmetic on values raises [TypeError] on a property object. *)
Definition arith (op : num -> num -> num) (a b : pyval num) : result num :=
  match a, b with
  | Num x, Num y => Ok (op x y)
  | _, _ => Raise TypeError
  end.

(** [o == 0.0] for an optional float: [None == 0.0] is false. *)
Definition opt_is_zero (o : option num) : bool :=
  match o with
  | Some x => eqb x zero
  | None => false
  end.

(** An omitted argument of a property-backed field is the property. *)
Definition arg (o : option num) : pyval num :=
  match o with
  | Some x => Num x
  | None => Property
  end.
End Values.

(** [np.isclose(x, y, rtol=1e-8)] on two floats, with the default
    [atol=1e-8]. *)
Class PyClose (num : Type) := isclose : num -> num -> bool.

(** ** IEEE-754 binary64 *)

Module Binary64.
Definition prec : Z := 53.
Definition emax : Z := 1024.
Definition float : Type := spec_float.

Definition fzero : float := S754_zero false.
Definition ftwo : float := S754_finite false 4503599627370496 (-51).

#[export] Instance binary64 : PyFloat float := {|
  zero := fzero;
  two := ftwo;
  add := SFadd prec emax;
  sub := SFsub prec emax;
  div := SFdiv prec emax;
  eqb := SFeqb;
  eqb_zero := eq_refl
|}.

(** Decimal literals, as CPython reads them. *)
Definition f0_1 : float := S754_finite false 7205759403792794 (-56).
Definition f0_7 : float := S754_finite false 6305039478318694 (-53).
Definition fone : float := S754_finite false 4503599627370496 (-52).
Definition f1e_8 : float := S754_finite false 6044629098073146 (-79).

(** [np.isfinite] *)
Definition is_finite (x : float) : bool :=
  match x with
  | S754_zero _ | S754_finite _ _ _ => true
  | S754_infinity _ | S754_nan => false
  end.

(** [np.isclose]: two finite numbers are close when
    [abs(x - y) <= atol + rtol * abs(y)]; otherwise they are close when
    they are equal. *)
#[export] Instance binary64_isclose : PyClose float := fun x y =>
  if is_finite x && is_finite y
  then SFleb (SFabs (SFsub prec emax x y))
             (SFadd prec emax f1e_8 (SFmul prec emax f1e_8 (SFabs y)))
  else SFeqb x y.
End Binary64.

(** ** [ElementPosition] *)

Module ElementPosition.
Section Model.
Context {num : Type} `{PyFloat num}.

(** [_position = None] below means that the attribute is not set yet;
    the code never stores Python's [None] in it. *)
Record t : Type := mk {
  _length : pyval num;
  _location : pyval num;
  _reference : pyval num;
  reference_element : string;
  mech_sep : num;
  _position : option (gmap string num)
}.

(** property getters *)
Definition length (self : t) : pyval num := _length self.
Definition location (self : t) : pyval num := _location self.
Definition reference (self : t) : pyval num := _reference self.

(** The body of the [try] in [calc_position]. *)
Definition calc_position_try (self : t) : result (gmap string num) :=
  pos ← arith add (location self) (reference self);
  half ← arith div (length self) (Num two);
  Ok (<["end" := add pos half]>
       (<["start" := sub pos half]> {["centre" := pos]})).

(** [except: AttributeError] is a bare [except]: every exception is
    swallowed, and the object is left as it was. *)
Definition calc_position (self : t) : t :=
  match calc_position_try self with
  | Ok d => mk (_length self) (_location self) (_reference self)
               (reference_element self) (mech_sep self) (Some d)
  | Raise _ => self
  end.

(** property setters *)
Definition set_length (v : pyval num) (self : t) : t :=
  calc_position (mk v (_location self) (_reference self)
                    (reference_element self) (mech_sep self) (_position self)).

Definition set_location (v : pyval num) (self : t) : t :=
  calc_position (mk (_length self) v (_reference self)
                    (reference_element self) (mech_sep self) (_position self)).

Definition set_reference (v : pyval num) (self : t) : t :=
  calc_position (mk (_length self) (_location self) v
                    (reference_element self) (mech_sep self) (_position self)).

Definition set_position (location reference : num) (self : t) : t :=
  calc_position (mk (_length self) (Num location) (Num reference)
                    (reference_element self) (mech_sep self) (_position self)).

(** [get_position]. Its test [self._position == None] is never true (a
    dict is not equal to [None]); reading the attribute before it is set
    raises [AttributeError]. *)
Definition get_position (loc : string) (self : t) : result num :=
  assert (bool_decide (loc ∈ ["centre"; "start"; "end"]));;
  d ← match _position self with
      | Some d => Ok d
      | None => Raise AttributeError
      end;
  match d !! loc with
  | Some x => Ok x
  | None => Raise KeyError
  end.

Definition start (self : t) : result num := get_position "start" self.
Definition position (self : t) : result num := get_position "centre" self.
Definition end_ (self : t) : result num := get_position "end" self.

(** The object before the generated [__init__] has assigned anything: the
    fields with [init=False] read their class-level default [0.0]. *)
Definition fresh (reference_element : string) (mech_sep : num) : t :=
  mk (Num zero) (Num zero) (Num zero) reference_element mech_sep None.

Definition __post_init__ (self : t) : t :=
  let self := if is_property (length self)
              then set_length (Num zero) self else self in
  let self := if is_property (location self)
              then set_location (Num zero) self else self in
  if is_property (reference self)
  then set_reference (Num zero) self else self.

(** The generated [__init__]: the three property-backed fields go through
    their setters, in field order. *)
Definition __init__ (length location reference : pyval num)
    (reference_element : string) (mech_sep : num) : t :=
  let self := fresh reference_element mech_sep in
  let self := set_length length self in
  let self := set_location location self in
  let self := set_reference reference self in
  __post_init__ self.

(** [ElementPosition(length=..., location=..., reference=...)], where
    [None] is an omitted argument. *)
Definition new (length location reference : option num)
    (reference_element : string) (mech_sep : num) : t :=
  __init__ (arg length) (arg location) (arg reference)
           reference_element mech_sep.

(** Assignments made to a constructed object. *)
Inductive assignment : Type :=
  | AssignLength (v : num)
  | AssignLocation (v : num)
  | AssignReference (v : num)
  | SetPosition (location reference : num).

Definition assign (self : t) (a : assignment) : t :=
  match a with
  | AssignLength v => set_length (Num v) self
  | AssignLocation v => set_location (Num v) self
  | AssignReference v => set_reference (Num v) self
  | SetPosition l r => set_position l r self
  end.

Definition assign_all (self : t) (l : list assignment) : t :=
  fold_left assign l self.

(** The inherited [ElementBaseProperties.__iter__], over the names in
    [INIT_PROPERTIES]. *)
Inductive property_name : Type :=
  | P_length
  | P_location
  | P_reference
  | P_reference_element
  | P_mech_sep.

Definition name (key : property_name) : string :=
  match key with
  | P_length => "length"
  | P_location => "location"
  | P_reference => "reference"
  | P_reference_element => "reference_element"
  | P_mech_sep => "mech_sep"
  end.

Definition INIT_PROPERTIES : list property_name :=
  [P_length; P_location; P_reference; P_reference_element; P_mech_sep].

Definition getattr (self : t) (key : property_name) : pyobj num :=
  match key with
  | P_length => Float (length self)
  | P_location => Float (location self)
  | P_reference => Float (reference self)
  | P_reference_element => Str (reference_element self)
  | P_mech_sep => Float (Num (mech_sep self))
  end.

Definition __iter__ (self : t) : list (string * pyobj num) :=
  (fun key => (name key, getattr self key)) <$> INIT_PROPERTIES.
End Model.
Arguments t num : clear implicits.
End ElementPosition.

(** ** [ElementID] *)

Module ElementID.
Record t : Type := mk {
  slot_id : option Z;
  assembly_id : option Z
}.

(** [x == 0.0] for an optional integer. *)
Definition is_zero (o : option Z) : bool :=
  match o with
  | Some z => (z =? 0)%Z
  | None => false
  end.

Definition __post_init__ (self : t) : t :=
  let self := if is_zero (slot_id self)
              then mk None (assembly_id self) else self in
  if is_zero (assembly_id self) then mk (slot_id self) None else self.

Definition new (slot_id assembly_id : option Z) : t :=
  __post_init__ (mk slot_id assembly_id).
End ElementID.

(** ** [RectangularAperture] *)

Module RectangularAperture.
Section Model.
Context {num : Type} `{PyFloat num}.

Record t : Type := mk {
  aperture_size : list num;
  aperture_type : option string;
  aperture_offset : list num
}.

(** [l[i]] *)
Definition getitem (l : list num) (i : nat) : result num :=
  match l !! i with
  | Some x => Ok x
  | None => Raise IndexError
  end.

Definition reset_offset_and_size_from_4_array (self : t) : result t :=
  a0 ← getitem (aperture_size self) 0;
  a1 ← getitem (aperture_size self) 1;
  let x_offset := div (add a0 a1) two in
  a2 ← getitem (aperture_size self) 2;
  a3 ← getitem (aperture_size self) 3;
  let y_offset := div (add a2 a3) two in
  let self := mk (aperture_size self) (aperture_type self)
                 [x_offset; y_offset] in
  b0 ← getitem (aperture_size self) 0;
  b2 ← getitem (aperture_size self) 2;
  Ok (mk [sub x_offset b0; sub y_offset b2] (aperture_type self)
         (aperture_offset self)).

Definition __post_init__ (self : t) : result t :=
  if (length (aperture_size self) =? 4)%nat
  then reset_offset_and_size_from_4_array self
  else Ok self.

(** Field defaults: [[0.0]], ['circle'], [[0.0]]. *)
Definition new (aperture_size : option (list num))
    (aperture_type : option (option string))
    (aperture_offset : option (list num)) : result t :=
  __post_init__ (mk (default [zero] aperture_size)
                    (default (Some "circle") aperture_type)
                    (default [zero] aperture_offset)).
End Model.
Arguments t num : clear implicits.
End RectangularAperture.

(** ** [DipoleEdgeData] *)

Module DipoleEdgeData.
Section Model.
Context {num : Type}.

Record t : Type := mk {
  h : num;
  e1 : num;
  side : string
}.

Definition __post_init__ (self : t) : result t :=
  assert (bool_decide (side self ∈ ["entrance"; "exit"]));;
  Ok self.

Definition new (h e1 : num) (side : string) : result t :=
  __post_init__ (mk h e1 side).
End Model.
Arguments t num : clear implicits.
End DipoleEdgeData.

(** ** Coefficient arrays

    The three [numpy] functions [_update_arrays] calls, on one-dimensional
    sequences. *)

Section Arrays.
Context {num : Type} `{PyFloat num}.

(** The loop of [np.trim_zeros(filt, trim='b')]: walk [filt[::-1]], and
    lower [last] until an entry with [i != 0.] is met. *)
Fixpoint trim_back (reversed : list (pyval num)) (last : nat) : nat :=
  match reversed with
  | [] => last
  | i :: rest => if nonzero i then last else trim_back rest (last - 1)
  end.

(** [np.trim_zeros(filt, trim='b')], which returns [filt[0:last]]. *)
Definition trim_zeros (filt : list (pyval num)) : list (pyval num) :=
  take (trim_back (reverse filt) (length filt)) filt.

(** [np.zeros(n)] *)
Definition zeros (n : nat) : list (pyval num) := replicate n (Num zero).

(** [np.pad(a, (0, n))]: [n] zeros appended. *)
Definition pad (a : list (pyval num)) (n : nat) : list (pyval num) :=
  a ++ replicate n (Num zero).

(** [l[i] = v] and [l[i]] on a list. *)
Definition setitem (l : list (pyval num)) (i : nat) (v : pyval num)
    : result (list (pyval num)) :=
  if (i <? length l)%nat then Ok (<[i := v]> l) else Raise IndexError.

Definition getitem (l : list (pyval num)) (i : nat) : result (pyval num) :=
  match l !! i with
  | Some v => Ok v
  | None => Raise IndexError
  end.
End Arrays.

(** The comparison [__eq__] makes, for a record type [T] whose arrays are
    read by the getters in [keys]. *)
Section Comparison.
Context {num : Type} `{PyClose num} {T : Type}.

(** [np.isclose] on two entries; arithmetic on a property object raises
    [TypeError]. *)
Definition isclose_values (a b : pyval num) : result bool :=
  match a, b with
  | Num x, Num y => Ok (isclose x y)
  | _, _ => Raise TypeError
  end.

(** [np.isclose(a, b, rtol=1e-8)] on two arrays of one length. *)
Fixpoint isclose_arrays (a b : list (pyval num)) : result (list bool) :=
  match a, b with
  | x :: a', y :: b' =>
      c ← isclose_values x y;
      r ← isclose_arrays a' b';
      Ok (c :: r)
  | _, _ => Ok []
  end.

(** The loop [for key in [...]] of [__eq__]. *)
Fixpoint eq_keys (keys : list (T -> list (pyval num))) (self other : T)
    : result bool :=
  match keys with
  | [] => Ok true
  | key :: rest =>
      if negb (length (key self) =? length (key other))%nat then Ok false
      else
        arr_eq ← isclose_arrays (key self) (key other);
        if bool_decide (false ∈ arr_eq) then Ok false
        else eq_keys rest self other
  end.
End Comparison.

(** ** [MultipoleStrengthData] *)

Module MultipoleStrengthData.
Section Model.
Context {num : Type} `{PyFloat num}.

(** [order = None]: the attribute is not set before [_update_arrays]. *)
Record t : Type := mk {
  kn : list (pyval num);
  ks : list (pyval num);
  polarity : option Z;
  order : option nat
}.

Definition _update_arrays (min_order : nat) (self : t) : t :=
  let kn' := trim_zeros (kn self) in
  let ks' := trim_zeros (ks self) in
  let kn' := if (length kn' =? 0)%nat then zeros 1 else kn' in
  let ks' := if (length ks' =? 0)%nat then zeros 1 else ks' in
  let order' := (length kn' `max` length ks') `max` min_order in
  mk (pad kn' (order' - length kn')) (pad ks' (order' - length ks'))
     (polarity self) (Some order').

Definition __post_init__ (self : t) : t := _update_arrays 1 self.

Definition new (kn ks : list (pyval num)) (polarity : option Z) : t :=
  __post_init__ (mk kn ks polarity None).

(** The inherited [ElementBaseProperties.__iter__], over the names in
    [INIT_PROPERTIES]. *)
Inductive property_name : Type :=
  | P_kn
  | P_ks
  | P_polarity.

Definition name (key : property_name) : string :=
  match key with
  | P_kn => "kn"
  | P_ks => "ks"
  | P_polarity => "polarity"
  end.

Definition INIT_PROPERTIES : list property_name := [P_kn; P_ks; P_polarity].

Definition getattr (self : t) (key : property_name) : pyobj num :=
  match key with
  | P_kn => Array (kn self)
  | P_ks => Array (ks self)
  | P_polarity => OptInt (polarity self)
  end.

Definition __iter__ (self : t) : list (string * pyobj num) :=
  (fun key => (name key, getattr self key)) <$> INIT_PROPERTIES.

Section Eq.
Context `{PyClose num}.

Definition __eq__ (self other : t) : result bool :=
  if bool_decide (polarity self <> polarity other) then Ok false
  else eq_keys [kn; ks] self other.
End Eq.
End Model.
Arguments t num : clear implicits.
End MultipoleStrengthData.

(** ** [ThinMultipoleStrengthData] *)

Module ThinMultipoleStrengthData.
Section Model.
Context {num : Type} `{PyFloat num}.

Record t : Type := mk {
  knl : list (pyval num);
  ksl : list (pyval num);
  polarity : option Z;
  order : option nat
}.

Definition _update_arrays (min_order : nat) (self : t) : t :=
  let knl' := trim_zeros (knl self) in
  let ksl' := trim_zeros (ksl self) in
  let knl' := if (length knl' =? 0)%nat then zeros 1 else knl' in
  let ksl' := if (length ksl' =? 0)%nat then zeros 1 else ksl' in
  let order' := (length knl' `max` length ksl') `max` min_order in
  mk (pad knl' (order' - length knl')) (pad ksl' (order' - length ksl'))
     (polarity self) (Some order').

Definition __post_init__ (self : t) : t := _update_arrays 1 self.

Definition new (knl ksl : list (pyval num)) (polarity : option Z) : t :=
  __post_init__ (mk knl ksl polarity None).

Section Eq.
Context `{PyClose num}.

Definition __eq__ (self other : t) : result bool :=
  if bool_decide (polarity self <> polarity other) then Ok false
  else eq_keys [knl; ksl] self other.
End Eq.
End Model.
Arguments t num : clear implicits.
End ThinMultipoleStrengthData.

(** ** [QuadrupoleData], [SextupoleData], [OctupoleData]

    The three subclasses of [MultipoleStrengthData] are the same text up to
    the index [n] of the coefficient their properties [kn]/[kns] expose
    ([k1]/[k1s], [k2]/[k2s], [k3]/[k3s]) and the [min_order] they pass; they
    are one definition here, indexed by the class. *)

Module PoleData.
Inductive pole : Type := Quadrupole | Sextupole | Octupole.

(** [self.kn[index]] is what the property reads and writes. *)
Definition index (c : pole) : nat :=
  match c with Quadrupole => 1 | Sextupole => 2 | Octupole => 3 end.

Definition min_order (c : pole) : nat :=
  match c with Quadrupole => 2 | Sextupole => 3 | Octupole => 4 end.

Section Model.
Context {num : Type} `{PyFloat num}.

(** The inherited fields, and the two the subclass adds next to its
    properties. [shared] records that [self.kn] and [self.ks] are one and
    the same list object, so that an item assignment through either is
    seen through both. *)
Record t : Type := mk {
  base : MultipoleStrengthData.t num;
  shared : bool;
  kmax : option num;
  kmin : option num
}.

Definition kn (self : t) := MultipoleStrengthData.kn (base self).
Definition ks (self : t) := MultipoleStrengthData.ks (base self).
Definition polarity (self : t) := MultipoleStrengthData.polarity (base self).
Definition order (self : t) := MultipoleStrengthData.order (base self).

Definition with_arrays (self : t) (kn' ks' : list (pyval num)) : t :=
  mk (MultipoleStrengthData.mk kn' ks' (polarity self) (order self))
     (shared self) (kmax self) (kmin self).

(** properties [k1], [k1s] (and [k2], [k2s], [k3], [k3s]). The entries
    of [kn] and [ks] are Python floats here: the constructor writes into
    the lists it is given, and on a constructed record the setters write
    into the float64 arrays [np.pad] has made of them, which store a float
    as it is. Lists of ints, which [np.pad] turns into int64 arrays that
    truncate an assigned float, are not covered. *)
Definition k (c : pole) (self : t) : result (pyval num) :=
  getitem (kn self) (index c).

Definition set_k (c : pole) (v : pyval num) (self : t) : result t :=
  l ← setitem (kn self) (index c) v;
  Ok (with_arrays self l (if shared self then l else ks self)).

Definition k_s (c : pole) (self : t) : result (pyval num) :=
  getitem (ks self) (index c).

Definition set_k_s (c : pole) (v : pyval num) (self : t) : result t :=
  l ← setitem (ks self) (index c) v;
  Ok (with_arrays self (if shared self then l else kn self) l).

(** [_update_arrays] binds [kn] and [ks] to two new arrays. *)
Definition _update_arrays (min_order : nat) (self : t) : t :=
  mk (MultipoleStrengthData._update_arrays min_order (base self))
     false (kmax self) (kmin self).

Definition __post_init__ (c : pole) (self : t) : result t :=
  v ← k c self;
  self ← (if is_property v then set_k c (Num zero) self else Ok self);
  v ← k_s c self;
  self ← (if is_property v then set_k_s c (Num zero) self else Ok self);
  let self := if opt_is_zero (kmax self)
              then mk (base self) (shared self) None (kmin self)
              else self in
  let self := if opt_is_zero (kmin self)
              then mk (base self) (shared self) (kmax self) None
              else self in
  Ok (_update_arrays (min_order c) self).

(** The arguments [kn] and [ks] of a constructor call: two lists, each
    possibly omitted ([None]; the default factory then makes a list of
    four zeros), or the same list object passed for both. *)
Inductive coefficients : Type :=
  | Lists (kn ks : option (list (pyval num)))
  | SameList (l : list (pyval num)).

Definition default_k : list (pyval num) :=
  [Num zero; Num zero; Num zero; Num zero].

Definition kn_arg (a : coefficients) : list (pyval num) :=
  match a with
  | Lists kn _ => default default_k kn
  | SameList l => l
  end.

Definition ks_arg (a : coefficients) : list (pyval num) :=
  match a with
  | Lists _ ks => default default_k ks
  | SameList l => l
  end.

Definition is_shared (a : coefficients) : bool :=
  match a with
  | Lists _ _ => false
  | SameList _ => true
  end.

(** The generated [__init__]: fields are assigned in the order [kn],
    [ks], [polarity], [k], [k_s], [kmax], [kmin]; the two property-backed
    ones go through their setters. *)
Definition __init__ (c : pole) (a : coefficients) (polarity : option Z)
    (k k_s : pyval num) (kmax kmin : option num) : result t :=
  let self := mk (MultipoleStrengthData.mk (kn_arg a) (ks_arg a)
                    polarity None)
                 (is_shared a) None None in
  self ← set_k c k self;
  self ← set_k_s c k_s self;
  let self := mk (base self) (shared self) kmax kmin in
  __post_init__ c self.

(** The constructor call: an omitted [k] or [k_s] ([None]) is the
    property object. *)
Definition new (c : pole) (a : coefficients) (polarity : option Z)
    (k k_s : option num) (kmax kmin : option num) : result t :=
  __init__ c a polarity (arg k) (arg k_s) kmax kmin.

Section Eq.
Context `{PyClose num}.

(** The subclasses are declared with [eq=False]: they inherit the
    [__eq__] of [MultipoleStrengthData], which reads [polarity], [kn] and
    [ks] only. *)
Definition __eq__ (self other : t) : result bool :=
  MultipoleStrengthData.__eq__ (base self) (base other).
End Eq.
End Model.
Arguments t num : clear implicits.
Arguments coefficients num : clear implicits.
End PoleData.

(** ** Vocabulary of the properties *)

Section Vocabulary.
Context {num : Type} `{PyFloat num}.

(** The highest index of [l] holding a non-zero entry, where the head of
    [l] has index [i0]. *)
Fixpoint highest_nonzero_from (i0 : nat) (l : list (pyval num))
    : option nat :=
  match l with
  | [] => None
  | x :: rest =>
      match highest_nonzero_from (S i0) rest with
      | Some j => Some j
      | None => if nonzero x then Some i0 else None
      end
  end.

(** The highest index of a non-zero coefficient of one array. *)
Definition highest_nonzero_index (l : list (pyval num)) : option nat :=
  highest_nonzero_from 0 l.

(** The highest index of a non-zero coefficient of [kn] or [ks]. *)
Definition highest_index (kn ks : list (pyval num)) : option nat :=
  match highest_nonzero_index kn, highest_nonzero_index ks with
  | Some i, Some j => Some (i `max` j)
  | Some i, None => Some i
  | None, o => o
  end.

(** The number of coefficients up to the highest non-zero one. *)
Definition coefficient_count (kn ks : list (pyval num)) : nat :=
  from_option S 0 (highest_index kn ks).

(** The order as the specification words it: the highest index of a
    non-zero coefficient of the trimmed arrays. *)
Definition order_is_highest_index (order : option nat)
    (kn ks : list (pyval num)) : Prop :=
  order = highest_index (trim_zeros kn) (trim_zeros ks).

(** A trimmed array, replaced by [np.zeros(1)] when nothing is left: the
    first four lines of [_update_arrays], for one array. *)
Definition normalized (l : list (pyval num)) : list (pyval num) :=
  let l' := trim_zeros l in
  if (length l' =? 0)%nat then zeros 1 else l'.

(** The arrays of a quadrupole, sextupole or octupole record at the time
    [_update_arrays] runs: the entry at the class's index has been
    overwritten by the arguments [k] and [k_s], [0.0] when omitted; when
    one list object was passed for both arrays, the later assignment, of
    [k_s], is the one that stays. *)
Definition effective_ks (c : PoleData.pole) (a : PoleData.coefficients num)
    (k_s : option num) : list (pyval num) :=
  <[PoleData.index c := Num (default zero k_s)]> (PoleData.ks_arg a).

Definition effective_kn (c : PoleData.pole) (a : PoleData.coefficients num)
    (k k_s : option num) : list (pyval num) :=
  if PoleData.is_shared a then effective_ks c a k_s
  else <[PoleData.index c := Num (default zero k)]> (PoleData.kn_arg a).

(** The record a successful construction of a quadrupole, sextupole or
    octupole record returns, in closed form. *)
Definition constructed (c : PoleData.pole) (a : PoleData.coefficients num)
    (polarity : option Z) (k k_s kmax kmin : option num) : PoleData.t num :=
  PoleData.mk
    (MultipoleStrengthData._update_arrays (PoleData.min_order c)
       (MultipoleStrengthData.mk (effective_kn c a k k_s)
          (effective_ks c a k_s) polarity None))
    false
    (if opt_is_zero kmax then None else kmax)
    (if opt_is_zero kmin then None else kmin).

(** What is stored for an optional float given to a constructor that
    replaces a value with [x == 0.0] by [None]. *)
Definition stored_or_none (given stored : option num) : Prop :=
  match given with
  | Some x => if eqb x zero then stored = None else stored = Some x
  | None => stored = None
  end.

(** [start + length == end] on a position record. *)
Definition start_plus_length_is_end (p : ElementPosition.t num) : Prop :=
  exists s e l,
    ElementPosition.start p = Ok s /\ ElementPosition.end_ p = Ok e /\
    ElementPosition.length p = Num l /\ eqb (add s l) e = true.

(** [position == (start + end) / 2] on a position record. *)
Definition position_is_midpoint (p : ElementPosition.t num) : Prop :=
  exists c s e,
    ElementPosition.position p = Ok c /\ ElementPosition.start p = Ok s /\
    ElementPosition.end_ p = Ok e /\ eqb c (div (add s e) two) = true.

(** The dict [calc_position] builds from three floats. *)
Definition positions (len loc ref : num) : gmap string num :=
  <["end" := add (add loc ref) (div len two)]>
    (<["start" := sub (add loc ref) (div len two)]>
       {["centre" := add loc ref]}).

(** The three stored fields are floats and [_position] is the dict made
    from them. *)
Definition settled (p : ElementPosition.t num) (len loc ref : num) : Prop :=
  ElementPosition._length p = Num len /\
  ElementPosition._location p = Num loc /\
  ElementPosition._reference p = Num ref /\
  ElementPosition._position p = Some (positions len loc ref).

(** The derived positions agree with the stored fields. *)
Definition consistent (p : ElementPosition.t num) : Prop :=
  exists len loc ref,
    ElementPosition.length p = Num len /\
    ElementPosition.location p = Num loc /\
    ElementPosition.reference p = Num ref /\
    ElementPosition.position p = Ok (add loc ref) /\
    ElementPosition.start p = Ok (sub (add loc ref) (div len two)) /\
    ElementPosition.end_ p = Ok (add (add loc ref) (div len two)).
End Vocabulary.

(** ** Vocabulary for sequences of assignments *)

Section PositionVocabulary.
Context {num : Type} `{PyFloat num}.

(** The three floats an [ElementPosition] stores. *)
Record fields : Type := Fields {
  f_length : num;
  f_location : num;
  f_reference : num
}.

(** The value each field was last given. *)
Definition track (f : fields) (a : ElementPosition.assignment) : fields :=
  match a with
  | ElementPosition.AssignLength v => Fields v (f_location f) (f_reference f)
  | ElementPosition.AssignLocation v => Fields (f_length f) v (f_reference f)
  | ElementPosition.AssignReference v => Fields (f_length f) (f_location f) v
  | ElementPosition.SetPosition l r => Fields (f_length f) l r
  end.

Definition last_assigned (f : fields)
    (ops : list ElementPosition.assignment) : fields :=
  fold_left track ops f.

(** The object whose stored floats are [f] and whose [_position] is the
    dict computed from them. *)
Definition state_of (reference_element : string) (mech_sep : num)
    (f : fields) : ElementPosition.t num :=
  ElementPosition.mk (Num (f_length f)) (Num (f_location f))
    (Num (f_reference f)) reference_element mech_sep
    (Some (positions (f_length f) (f_location f) (f_reference f))).

(** The fields a constructor call starts from: [0.0] for an omitted
    argument. *)
Definition initial_fields (length location reference : option num) : fields :=
  Fields (default zero length) (default zero location)
         (default zero reference).
End PositionVocabulary.

(** ** Vocabulary for comparisons *)

(** A binary64 result that is a number and not negative. *)
Definition not_negative (x : Binary64.float) : bool :=
  match x with
  | S754_zero false | S754_finite false _ _ | S754_infinity false => true
  | _ => false
  end.

(** ** The value of a binary64 number *)

(** The rational a finite binary64 number stands for. *)
Definition F2Q (x : Binary64.float) : Q :=
  match x with
  | S754_finite s m e => (inject_Z (cond_Zopp s (Z.pos m)) * Qpower 2 e)%Q
  | _ => 0%Q
  end.

(** [r] is a finite, well-formed binary64 number and stands for [q]: an
    operation that returns [r] where the real-number result is [q] has
    rounded nothing. *)
Definition exact (r : Binary64.float) (q : Q) : Prop :=
  Binary64.is_finite r = true /\
  valid_binary Binary64.prec Binary64.emax r = true /\
  (F2Q r == q)%Q.

(** * Properties *)

(** ** [ElementPosition] *)

Section PositionFacts.
Context {num : Type} `{PyFloat num}.
Import ElementPosition.

Lemma positions_centre (len loc ref : num) :
  positions len loc ref !! "centre" = Some (add loc ref).
Proof. reflexivity. Qed.

Lemma positions_start (len loc ref : num) :
  positions len loc ref !! "start" = Some (sub (add loc ref) (div len two)).
Proof. reflexivity. Qed.

Lemma positions_end (len loc ref : num) :
  positions len loc ref !! "end" = Some (add (add loc ref) (div len two)).
Proof. reflexivity. Qed.

Lemma calc_position_floats len loc ref re ms d :
  calc_position (mk (Num len) (Num loc) (Num ref) re ms d)
  = mk (Num len) (Num loc) (Num ref) re ms (Some (positions len loc ref)).
Proof. reflexivity. Qed.

(** A property object among the three fields makes the arithmetic raise,
    and [calc_position] leaves the object alone. *)
Lemma calc_position_property (p : t num) :
  is_property (_length p) || is_property (_location p)
    || is_property (_reference p) = true ->
  calc_position p = p.
Proof.
  destruct p as [[len|] [loc|] [ref|] re ms d]; simpl; intros Hp;
    try discriminate; reflexivity.
Qed.

Lemma settled_get (p : t num) len loc ref loc_name x :
  settled p len loc ref ->
  loc_name ∈ ["centre"; "start"; "end"] ->
  positions len loc ref !! loc_name = Some x ->
  get_position loc_name p = Ok x.
Proof.
  intros (_ & _ & _ & Hd) Hin Hx. unfold get_position.
  rewrite bool_decide_eq_true_2 by exact Hin. simpl.
  rewrite Hd. simpl. rewrite Hx. reflexivity.
Qed.

Lemma settled_consistent (p : t num) len loc ref :
  settled p len loc ref -> consistent p.
Proof.
  intros Hs. exists len, loc, ref.
  destruct Hs as (Hl & Ho & Hr & Hd).
  repeat split; try assumption;
    (eapply settled_get; [repeat split; eassumption | set_solver | ]).
  - apply positions_centre.
  - apply positions_start.
  - apply positions_end.
Qed.

(** Construction: an omitted field ends up as [0.0]. *)
Lemma new_settled (length location reference : option num) re ms :
  settled (new length location reference re ms)
          (default zero length) (default zero location)
          (default zero reference).
Proof.
  destruct length, location, reference; repeat split.
Qed.

Lemma assign_settled (p : t num) len loc ref (a : assignment) :
  settled p len loc ref ->
  exists len' loc' ref', settled (assign p a) len' loc' ref'.
Proof.
  destruct p as [l0 o0 r0 re ms d]. intros (Hl & Ho & Hr & Hd).
  simpl in Hl, Ho, Hr, Hd. subst l0 o0 r0 d.
  destruct a as [v|v|v|l r]; simpl.
  - exists v, loc, ref. repeat split.
  - exists len, v, ref. repeat split.
  - exists len, loc, v. repeat split.
  - exists len, l, r. repeat split.
Qed.

Lemma assign_all_settled (ops : list assignment) :
  forall (p : t num) len loc ref,
    settled p len loc ref ->
    exists len' loc' ref', settled (assign_all p ops) len' loc' ref'.
Proof.
  induction ops as [|a ops IH]; intros p len loc ref Hs.
  - exists len, loc, ref. exact Hs.
  - destruct (assign_settled p len loc ref a Hs) as (len' & loc' & ref' & Hs').
    exact (IH _ _ _ _ Hs').
Qed.
End PositionFacts.

Section PositionClaims.
Context {num : Type} `{PyFloat num}.
Import ElementPosition.

(** C5. After construction and after every later assignment to [length],
    [location] or [reference] (or a call of [set_position]), the three
    stored fields are floats and the derived positions follow from them:
    the centre is [location + reference], the start is
    [location + reference - length/2.] and the end is
    [location + reference + length/2.]. *)
Theorem position_kept_consistent
    (length location reference : option num) (re : string) (ms : num)
    (ops : list assignment) :
  consistent (assign_all (new length location reference re ms) ops).
Proof.
  destruct (assign_all_settled ops _ _ _ _
              (new_settled length location reference re ms))
    as (len & loc & ref & Hs).
  exact (settled_consistent _ _ _ _ Hs).
Qed.

(** C10. [get_position] raises [AssertionError] for every [loc] other
    than ['centre'], ['start'] and ['end'], on any object; on a constructed
    object, also after later assignments, each of these three names returns
    the entry stored under it in [_position]. *)
Theorem get_position_checks_loc :
  (forall (p : t num) (loc : string),
      loc ∉ ["centre"; "start"; "end"] ->
      get_position loc p = Raise AssertionError) /\
  (forall (length location reference : option num) (re : string) (ms : num)
          (ops : list assignment) (loc : string),
      loc ∈ ["centre"; "start"; "end"] ->
      let p := assign_all (new length location reference re ms) ops in
      exists d x,
        _position p = Some d /\ d !! loc = Some x /\
        get_position loc p = Ok x).
Proof.
  split.
  - intros p loc Hloc. unfold get_position.
    rewrite bool_decide_eq_false_2 by exact Hloc. reflexivity.
  - intros length location reference re ms ops loc Hloc p.
    destruct (assign_all_settled ops _ _ _ _
                (new_settled length location reference re ms))
      as (len & loc' & ref & Hs).
    fold p in Hs.
    assert (Hx : exists x, positions len loc' ref !! loc = Some x).
    { apply list_elem_of_In in Hloc. simpl in Hloc.
      destruct Hloc as [<-|[<-|[<-|[]]]]; eexists; reflexivity. }
    destruct Hx as [x Hx].
    exists (positions len loc' ref), x.
    split; [apply Hs|]. split; [exact Hx|].
    exact (settled_get p _ _ _ loc x Hs Hloc Hx).
Qed.
End PositionClaims.

Section PositionBinary64.
Import ElementPosition Binary64.

(** The decimal literals used below are binary64 numbers. *)
Lemma literals_valid :
  Forall (fun x => valid_binary prec emax x = true)
         [fzero; fone; ftwo; f0_1; f0_7].
Proof. repeat constructor. Qed.

(** C2 fails in binary64: with [length=0.1] and [location=0.7], [start]
    is [0.6499999999999999], [start + length] is [0.7499999999999999] and
    [end] is [0.75]. *)
Lemma start_plus_length_is_end_binary64_fails :
  ~ start_plus_length_is_end (new (Some f0_1) (Some f0_7) None "" fzero).
Proof.
  intros (s & e & l & Hs & He & Hl & Heq).
  vm_compute in Hs, He, Hl.
  injection Hs as <-. injection He as <-. injection Hl as <-.
  vm_compute in Heq. discriminate Heq.
Qed.

(** C3 fails in binary64: with [length=0.7] and [location=0.1], the
    centre is [0.1] and [(start + end) / 2] is [0.09999999999999999]. *)
Lemma position_is_midpoint_binary64_fails :
  ~ position_is_midpoint (new (Some f0_7) (Some f0_1) None "" fzero).
Proof.
  intros (c & s & e & Hc & Hs & He & Heq).
  vm_compute in Hc, Hs, He.
  injection Hc as <-. injection Hs as <-. injection He as <-.
  vm_compute in Heq. discriminate Heq.
Qed.
End PositionBinary64.

Section PositionWitnesses.
Import ElementPosition Binary64.

(** [get_position] on the object made by [ElementPosition(length=0.1)],
    for a name that is refused and for one that is served. *)
Lemma get_position_checks_loc_witness :
  let p := new (Some f0_1) None None "" fzero in
  get_position "middle" p = Raise AssertionError /\
  exists d x,
    _position p = Some d /\ d !! "start" = Some x /\
    get_position "start" p = Ok x.
Proof.
  split.
  - apply (proj1 get_position_checks_loc).
    intros Hin. apply list_elem_of_In in Hin. simpl in Hin.
    intuition discriminate.
  - apply (proj2 get_position_checks_loc (Some f0_1) None None "" fzero
             [] "start").
    apply list_elem_of_In. simpl. auto.
Defined.
End PositionWitnesses.

(** ** Coefficient arrays *)

Section ArrayFacts.
Context {num : Type} `{PyFloat num}.
Implicit Types (l a : list (pyval num)) (x : pyval num).

Lemma nonzero_zero : nonzero (Num zero) = false.
Proof. simpl. rewrite eqb_zero. reflexivity. Qed.

Lemma trim_back_le (r : list (pyval num)) (n : nat) : trim_back r n <= n.
Proof.
  revert n. induction r as [|x r IH]; intros n; simpl.
  - lia.
  - destruct (nonzero x); [lia|]. specialize (IH (n - 1)). lia.
Qed.

Lemma trim_zeros_nil : trim_zeros (num := num) [] = [].
Proof. reflexivity. Qed.

(** [trim_zeros] looks at the last entry first. *)
Lemma trim_zeros_snoc l x :
  trim_zeros (l ++ [x]) = if nonzero x then l ++ [x] else trim_zeros l.
Proof.
  unfold trim_zeros. rewrite reverse_snoc, length_app. simpl.
  destruct (nonzero x).
  - apply take_ge. rewrite length_app. simpl. lia.
  - replace (length l + 1 - 1) with (length l) by lia.
    apply take_app_le, trim_back_le.
Qed.

Lemma highest_nonzero_from_snoc l x (i0 : nat) :
  highest_nonzero_from i0 (l ++ [x])
  = if nonzero x then Some (i0 + length l) else highest_nonzero_from i0 l.
Proof.
  revert i0. induction l as [|y l IH]; intros i0; simpl.
  - rewrite Nat.add_0_r. reflexivity.
  - rewrite IH. destruct (nonzero x).
    + f_equal. lia.
    + reflexivity.
Qed.

Lemma highest_nonzero_index_snoc l x :
  highest_nonzero_index (l ++ [x])
  = if nonzero x then Some (length l) else highest_nonzero_index l.
Proof. apply highest_nonzero_from_snoc. Qed.

(** What [highest_nonzero_index] computes: the index holds a non-zero
    entry, and every entry above it is zero. *)
Lemma highest_nonzero_index_Some l (i : nat) :
  highest_nonzero_index l = Some i <->
  (exists x, l !! i = Some x /\ nonzero x = true) /\
  (forall j y, i < j -> l !! j = Some y -> nonzero y = false).
Proof.
  induction l as [|x l IH] using rev_ind.
  - split; [discriminate|]. intros [(x & Hx & _) _]. discriminate.
  - rewrite highest_nonzero_index_snoc.
    destruct (nonzero x) eqn:Hnz.
    + split.
      * intros [= <-]. split.
        -- exists x. split; [apply list_lookup_middle; reflexivity|exact Hnz].
        -- intros j y Hj Hy. apply lookup_lt_Some in Hy.
           rewrite length_app in Hy. simpl in Hy. lia.
      * intros [(y & Hy & Hnzy) Hall].
        destruct (lt_eq_lt_dec i (length l)) as [[Hlt|Heq]|Hgt].
        -- rewrite (Hall (length l) x Hlt) in Hnz; [discriminate|].
           apply list_lookup_middle. reflexivity.
        -- congruence.
        -- apply lookup_lt_Some in Hy. rewrite length_app in Hy.
           simpl in Hy. lia.
    + rewrite IH. split.
      * intros [(y & Hy & Hnzy) Hall]. split.
        -- exists y. split; [apply lookup_app_l_Some; exact Hy|exact Hnzy].
        -- intros j z Hj Hz. apply lookup_snoc_Some in Hz.
           destruct Hz as [[_ Hz]|[_ <-]]; [eapply Hall; eassumption|exact Hnz].
      * intros [(y & Hy & Hnzy) Hall]. split.
        -- exists y. split; [|exact Hnzy].
           apply lookup_snoc_Some in Hy.
           destruct Hy as [[_ Hy]|[_ <-]]; [exact Hy|congruence].
        -- intros j z Hj Hz. apply (Hall j z Hj).
           apply lookup_app_l_Some. exact Hz.
Qed.

Lemma highest_nonzero_index_None l :
  highest_nonzero_index l = None <->
  (forall j y, l !! j = Some y -> nonzero y = false).
Proof.
  induction l as [|x l IH] using rev_ind.
  - split; [intros _ j y Hy; discriminate|reflexivity].
  - rewrite highest_nonzero_index_snoc.
    destruct (nonzero x) eqn:Hnz.
    + split; [discriminate|]. intros Hall.
      rewrite (Hall (length l) x) in Hnz; [discriminate|].
      apply list_lookup_middle. reflexivity.
    + rewrite IH. split.
      * intros Hall j y Hy. apply lookup_snoc_Some in Hy.
        destruct Hy as [[_ Hy]|[_ <-]]; [eapply Hall; eassumption|exact Hnz].
      * intros Hall j y Hy. apply (Hall j y).
        apply lookup_app_l_Some. exact Hy.
Qed.

(** A non-zero entry lies at or below the highest non-zero index. *)
Lemma highest_nonzero_index_ge l (j : nat) x :
  l !! j = Some x -> nonzero x = true ->
  exists j', highest_nonzero_index l = Some j' /\ j <= j'.
Proof.
  intros Hj Hnz. destruct (highest_nonzero_index l) as [j'|] eqn:Hh.
  - exists j'. split; [reflexivity|].
    apply highest_nonzero_index_Some in Hh. destruct Hh as [_ Hall].
    destruct (le_lt_dec j j') as [Hle|Hlt]; [exact Hle|].
    rewrite (Hall j x Hlt Hj) in Hnz. discriminate.
  - rewrite highest_nonzero_index_None in Hh.
    rewrite (Hh j x Hj) in Hnz. discriminate.
Qed.

(** Writing at index [i] moves the highest non-zero index only below
    [i]. *)
Lemma count_insert_le l (i : nat) x :
  from_option S 0 (highest_nonzero_index (<[i := x]> l))
  <= from_option S 0 (highest_nonzero_index l) `max` S i.
Proof.
  destruct (highest_nonzero_index (<[i := x]> l)) as [j|] eqn:Hh;
    simpl; [|lia].
  apply highest_nonzero_index_Some in Hh.
  destruct Hh as [(y & Hy & Hnz) _].
  destruct (decide (i = j)) as [->|Hne]; [lia|].
  rewrite list_lookup_insert_ne in Hy by exact Hne.
  destruct (highest_nonzero_index_ge l j y Hy Hnz) as (j' & -> & Hle).
  simpl. lia.
Qed.

Lemma count_insert l (i : nat) x :
  from_option S 0 (highest_nonzero_index (<[i := x]> l)) `max` S i
  = from_option S 0 (highest_nonzero_index l) `max` S i.
Proof.
  pose proof (count_insert_le l i x) as Hle.
  assert (Hge : from_option S 0 (highest_nonzero_index l)
                <= from_option S 0 (highest_nonzero_index (<[i := x]> l))
                   `max` S i).
  { destruct (l !! i) as [y|] eqn:Hy.
    - pose proof (count_insert_le (<[i := x]> l) i y) as Hback.
      rewrite list_insert_insert_eq, (list_insert_id l i y Hy) in Hback.
      exact Hback.
    - rewrite list_insert_ge by (apply lookup_ge_None_1; exact Hy). lia. }
  lia.
Qed.

(** Trimming keeps the entries up to the highest non-zero one. *)
Lemma length_trim_zeros l :
  length (trim_zeros l) = from_option S 0 (highest_nonzero_index l).
Proof.
  induction l as [|x l IH] using rev_ind.
  - reflexivity.
  - rewrite trim_zeros_snoc, highest_nonzero_index_snoc.
    destruct (nonzero x).
    + rewrite length_app. simpl. lia.
    + exact IH.
Qed.

Lemma highest_nonzero_index_trim l :
  highest_nonzero_index (trim_zeros l) = highest_nonzero_index l.
Proof.
  induction l as [|x l IH] using rev_ind.
  - reflexivity.
  - rewrite trim_zeros_snoc, highest_nonzero_index_snoc.
    destruct (nonzero x) eqn:Hnz.
    + rewrite highest_nonzero_index_snoc, Hnz. reflexivity.
    + exact IH.
Qed.

Lemma trim_zeros_idem l : trim_zeros (trim_zeros l) = trim_zeros l.
Proof.
  induction l as [|x l IH] using rev_ind.
  - reflexivity.
  - rewrite trim_zeros_snoc. destruct (nonzero x) eqn:Hnz.
    + rewrite trim_zeros_snoc, Hnz. reflexivity.
    + exact IH.
Qed.

(** The zeros [pad] appends are trimmed again. *)
Lemma trim_zeros_pad a (n : nat) : trim_zeros (pad a n) = trim_zeros a.
Proof.
  unfold pad. induction n as [|n IH].
  - simpl. rewrite app_nil_r. reflexivity.
  - rewrite replicate_S_end, app_assoc, trim_zeros_snoc, nonzero_zero.
    exact IH.
Qed.

Lemma trim_zeros_zeros (n : nat) : trim_zeros (num := num) (zeros n) = [].
Proof. exact (trim_zeros_pad [] n). Qed.

Lemma length_pad a (n : nat) : length (pad a n) = length a + n.
Proof. unfold pad. rewrite length_app, length_replicate. reflexivity. Qed.
End ArrayFacts.

(** ** [MultipoleStrengthData] and [ThinMultipoleStrengthData] *)

Section MultipoleFacts.
Context {num : Type} `{PyFloat num}.
Implicit Types (l kn ks : list (pyval num)).

Lemma length_normalized l :
  length (normalized l) = 1 `max` from_option S 0 (highest_nonzero_index l).
Proof.
  unfold normalized. cbv zeta. rewrite <- length_trim_zeros.
  destruct (length (trim_zeros l)) as [|n] eqn:Hn; simpl; lia.
Qed.

Lemma trim_zeros_normalized l : trim_zeros (normalized l) = trim_zeros l.
Proof.
  unfold normalized. cbv zeta.
  destruct (trim_zeros l) as [|x t] eqn:Ht; simpl.
  - apply (trim_zeros_zeros 1).
  - rewrite <- Ht. apply trim_zeros_idem.
Qed.

Lemma normalized_pad_normalized l (n : nat) :
  normalized (pad (normalized l) n) = normalized l.
Proof.
  unfold normalized at 1. cbv zeta.
  rewrite trim_zeros_pad, trim_zeros_normalized. reflexivity.
Qed.

Lemma coefficient_count_max kn ks :
  coefficient_count kn ks
  = from_option S 0 (highest_nonzero_index kn)
      `max` from_option S 0 (highest_nonzero_index ks).
Proof.
  unfold coefficient_count, highest_index.
  destruct (highest_nonzero_index kn), (highest_nonzero_index ks);
    simpl; lia.
Qed.

(** Below a minimal order of [S i], what is written at index [i] of
    either array does not show. *)
Lemma coefficient_count_insert kn ks (i : nat) (x y : pyval num) :
  coefficient_count (<[i := x]> kn) (<[i := y]> ks) `max` S i
  = coefficient_count kn ks `max` S i.
Proof.
  rewrite !coefficient_count_max.
  pose proof (count_insert kn i x). pose proof (count_insert ks i y). lia.
Qed.

(** The value [_update_arrays] gives to [order]. *)
Lemma order_value kn ks (min_order : nat) :
  (length (normalized kn) `max` length (normalized ks)) `max` min_order
  = coefficient_count kn ks `max` (1 `max` min_order).
Proof. rewrite !length_normalized, coefficient_count_max. lia. Qed.

Lemma update_arrays_unfold (min_order : nat) (m : MultipoleStrengthData.t num) :
  MultipoleStrengthData._update_arrays min_order m
  = let kn := MultipoleStrengthData.kn m in
    let ks := MultipoleStrengthData.ks m in
    let o := coefficient_count kn ks `max` (1 `max` min_order) in
    MultipoleStrengthData.mk
      (pad (normalized kn) (o - length (normalized kn)))
      (pad (normalized ks) (o - length (normalized ks)))
      (MultipoleStrengthData.polarity m) (Some o).
Proof.
  cbv zeta. rewrite <- order_value. reflexivity.
Qed.

Lemma thin_update_arrays_unfold (min_order : nat)
    (m : ThinMultipoleStrengthData.t num) :
  ThinMultipoleStrengthData._update_arrays min_order m
  = let knl := ThinMultipoleStrengthData.knl m in
    let ksl := ThinMultipoleStrengthData.ksl m in
    let o := coefficient_count knl ksl `max` (1 `max` min_order) in
    ThinMultipoleStrengthData.mk
      (pad (normalized knl) (o - length (normalized knl)))
      (pad (normalized ksl) (o - length (normalized ksl)))
      (ThinMultipoleStrengthData.polarity m) (Some o).
Proof.
  cbv zeta. rewrite <- order_value. reflexivity.
Qed.

Lemma length_pad_to l (o : nat) :
  length l <= o -> length (pad l (o - length l)) = o.
Proof. intros Hle. rewrite length_pad. lia. Qed.

Lemma normalized_le_order kn ks (min_order : nat) :
  length (normalized kn) <= coefficient_count kn ks `max` (1 `max` min_order)
  /\ length (normalized ks) <= coefficient_count kn ks `max` (1 `max` min_order).
Proof. rewrite <- order_value. lia. Qed.

(** The arrays of an updated record have their non-zero entries where
    the arrays before the update had them. *)
Lemma coefficient_count_pad kn ks (n m : nat) :
  coefficient_count (pad (normalized kn) n) (pad (normalized ks) m)
  = coefficient_count kn ks.
Proof.
  rewrite !coefficient_count_max, <- !length_trim_zeros.
  rewrite !trim_zeros_pad, !trim_zeros_normalized. reflexivity.
Qed.

(** Updating twice is updating once. *)
Lemma update_arrays_idem (min_order : nat) (m : MultipoleStrengthData.t num) :
  MultipoleStrengthData._update_arrays min_order
    (MultipoleStrengthData._update_arrays min_order m)
  = MultipoleStrengthData._update_arrays min_order m.
Proof.
  rewrite (update_arrays_unfold min_order m). cbv zeta.
  rewrite update_arrays_unfold. cbv zeta. simpl.
  rewrite coefficient_count_pad, !normalized_pad_normalized.
  reflexivity.
Qed.
End MultipoleFacts.

(** ** Quadrupole, sextupole and octupole records *)

Section PoleFacts.
Context {num : Type} `{PyFloat num}.
Import PoleData.

Lemma setitem_Ok (l : list (pyval num)) (i : nat) (v : pyval num) :
  i < length l -> setitem l i v = Ok (<[i := v]> l).
Proof.
  intros Hi. unfold setitem.
  destruct (Nat.ltb_spec i (length l)); [reflexivity|lia].
Qed.

Lemma setitem_Raise (l : list (pyval num)) (i : nat) (v : pyval num) :
  length l <= i -> setitem l i v = Raise IndexError.
Proof.
  intros Hi. unfold setitem.
  destruct (Nat.ltb_spec i (length l)); [lia|reflexivity].
Qed.

Lemma getitem_insert (l : list (pyval num)) (i : nat) (v : pyval num) :
  i < length l -> getitem (<[i := v]> l) i = Ok v.
Proof.
  intros Hi. unfold getitem. rewrite list_lookup_insert_eq by exact Hi.
  reflexivity.
Qed.

(** What [__post_init__] leaves at the class's index: the argument, or
    [0.0] in place of the property object. *)
Lemma arg_settled (o : option num) :
  (if is_property (arg o) then Num zero else arg o) = Num (default zero o).
Proof. destruct o; reflexivity. Qed.

(** Construction succeeds when both arrays reach the class's index. *)
Lemma new_Ok (c : pole) (a : coefficients num) (polarity : option Z)
    (k k_s kmax kmin : option num) :
  index c < length (kn_arg a) -> index c < length (ks_arg a) ->
  new c a polarity k k_s kmax kmin
  = Ok (constructed c a polarity k k_s kmax kmin).
Proof.
  intros Hn Hs. unfold new, __init__, constructed, effective_kn, effective_ks.
  unfold __post_init__, set_k, set_k_s, PoleData.k, PoleData.k_s,
    with_arrays, _update_arrays.
  destruct a as [okn oks|l], k, k_s;
    repeat (cbn -[setitem getitem default_k] in *;
            first [ rewrite setitem_Ok
                      by (rewrite ?length_insert; assumption)
                  | rewrite getitem_insert
                      by (rewrite ?length_insert; assumption) ]);
    rewrite ?list_insert_insert_eq.
  all: destruct kmax as [x|], kmin as [y|]; simpl.
  all: try destruct (eqb x zero); simpl.
  all: try destruct (eqb y zero); simpl.
  all: try reflexivity.
Qed.

(** It raises [IndexError] when one of them is too short. *)
Lemma new_Raise (c : pole) (a : coefficients num) (polarity : option Z)
    (k k_s kmax kmin : option num) :
  length (kn_arg a) <= index c \/ length (ks_arg a) <= index c ->
  new c a polarity k k_s kmax kmin = Raise IndexError.
Proof.
  intros Hshort. unfold new, __init__, set_k, set_k_s, with_arrays.
  cbn -[setitem default_k].
  destruct (le_lt_dec (length (kn_arg a)) (index c)) as [Hn|Hn].
  - rewrite setitem_Raise by exact Hn. reflexivity.
  - rewrite setitem_Ok by exact Hn. cbn -[setitem default_k].
    rewrite setitem_Raise; [reflexivity|].
    destruct a as [okn oks|l]; cbn -[default_k] in *; lia.
Qed.

Lemma new_inv (c : pole) (a : coefficients num) (polarity : option Z)
    (k k_s kmax kmin : option num) (r : t num) :
  new c a polarity k k_s kmax kmin = Ok r ->
  index c < length (kn_arg a) /\ index c < length (ks_arg a) /\
  r = constructed c a polarity k k_s kmax kmin.
Proof.
  intros Hnew.
  destruct (le_lt_dec (length (kn_arg a)) (index c)) as [Hn|Hn].
  { rewrite new_Raise in Hnew by (left; exact Hn). discriminate. }
  destruct (le_lt_dec (length (ks_arg a)) (index c)) as [Hs|Hs].
  { rewrite new_Raise in Hnew by (right; exact Hs). discriminate. }
  rewrite new_Ok in Hnew by assumption.
  injection Hnew as <-. auto.
Qed.
End PoleFacts.

Section MultipoleClaims.
Context {num : Type} `{PyFloat num}.

(** C1, as the code has it. The [order] of a record is the number of
    coefficients up to the highest non-zero one of the input [kn] or [ks]
    (one more than its index; zero when all coefficients are zero), and at
    least the class's minimal order: 1 for [MultipoleStrengthData] and
    [ThinMultipoleStrengthData], 2, 3 and 4 for a quadrupole, sextupole and
    octupole record, whenever the construction of one of these succeeds. *)
Theorem order_is_coefficient_count :
  (forall (kn ks : list (pyval num)) (polarity : option Z),
      MultipoleStrengthData.order
        (MultipoleStrengthData.new kn ks polarity)
      = Some (coefficient_count kn ks `max` 1)) /\
  (forall (knl ksl : list (pyval num)) (polarity : option Z),
      ThinMultipoleStrengthData.order
        (ThinMultipoleStrengthData.new knl ksl polarity)
      = Some (coefficient_count knl ksl `max` 1)) /\
  (forall (c : PoleData.pole) (a : PoleData.coefficients num)
          (polarity : option Z) (k k_s kmax kmin : option num)
          (r : PoleData.t num),
      PoleData.new c a polarity k k_s kmax kmin = Ok r ->
      PoleData.order r
      = Some (coefficient_count (PoleData.kn_arg a) (PoleData.ks_arg a)
                `max` PoleData.min_order c)).
Proof.
  split; [|split].
  - intros kn ks polarity.
    unfold MultipoleStrengthData.new, MultipoleStrengthData.__post_init__.
    rewrite update_arrays_unfold. reflexivity.
  - intros knl ksl polarity.
    unfold ThinMultipoleStrengthData.new,
      ThinMultipoleStrengthData.__post_init__.
    rewrite thin_update_arrays_unfold. reflexivity.
  - intros c a polarity k k_s kmax kmin r Hnew.
    apply new_inv in Hnew. destruct Hnew as (_ & _ & ->).
    unfold constructed, PoleData.order. cbn [PoleData.base].
    rewrite update_arrays_unfold.
    cbn [MultipoleStrengthData.order MultipoleStrengthData.kn
         MultipoleStrengthData.ks].
    f_equal.
    replace (1 `max` PoleData.min_order c) with (S (PoleData.index c))
      by (destruct c; reflexivity).
    replace (PoleData.min_order c) with (S (PoleData.index c))
      by (destruct c; reflexivity).
    unfold effective_kn, effective_ks.
    destruct a as [okn oks|l]; cbn [PoleData.is_shared PoleData.kn_arg
                                    PoleData.ks_arg];
      apply coefficient_count_insert.
Qed.

(** C4. After construction of a [MultipoleStrengthData] or a
    [ThinMultipoleStrengthData], the two coefficient arrays have the same
    length, and that length is the record's [order]. *)
Theorem arrays_have_order_length :
  (forall (kn ks : list (pyval num)) (polarity : option Z),
      let m := MultipoleStrengthData.new kn ks polarity in
      exists n : nat,
        MultipoleStrengthData.order m = Some n /\
        length (MultipoleStrengthData.kn m) = n /\
        length (MultipoleStrengthData.ks m) = n) /\
  (forall (knl ksl : list (pyval num)) (polarity : option Z),
      let m := ThinMultipoleStrengthData.new knl ksl polarity in
      exists n : nat,
        ThinMultipoleStrengthData.order m = Some n /\
        length (ThinMultipoleStrengthData.knl m) = n /\
        length (ThinMultipoleStrengthData.ksl m) = n).
Proof.
  split.
  - intros kn ks polarity m. subst m.
    unfold MultipoleStrengthData.new, MultipoleStrengthData.__post_init__.
    rewrite update_arrays_unfold. cbn.
    destruct (normalized_le_order kn ks 1) as [Hn Hs].
    eexists. split; [reflexivity|].
    split; apply length_pad_to; assumption.
  - intros knl ksl polarity m. subst m.
    unfold ThinMultipoleStrengthData.new,
      ThinMultipoleStrengthData.__post_init__.
    rewrite thin_update_arrays_unfold. cbn.
    destruct (normalized_le_order knl ksl 1) as [Hn Hs].
    eexists. split; [reflexivity|].
    split; apply length_pad_to; assumption.
Qed.

(** C8. Constructing a [MultipoleStrengthData] from the [kn], [ks] and
    [polarity] of a constructed one gives the same record: the same [kn],
    [ks] and [order]. *)
Theorem construction_idempotent
    (kn ks : list (pyval num)) (polarity : option Z) :
  let m := MultipoleStrengthData.new kn ks polarity in
  MultipoleStrengthData.new (MultipoleStrengthData.kn m)
    (MultipoleStrengthData.ks m) (MultipoleStrengthData.polarity m)
  = m.
Proof.
  intros m. subst m.
  unfold MultipoleStrengthData.new, MultipoleStrengthData.__post_init__.
  exact (update_arrays_idem 1 (MultipoleStrengthData.mk kn ks polarity None)).
Qed.
End MultipoleClaims.

Section MultipoleBinary64.
Import Binary64.

(** C1 as worded fails: [MultipoleStrengthData(kn=[2.0], ks=[0.0])] has
    order 1, and the highest index of a non-zero coefficient is 0. *)
Lemma order_is_highest_index_fails :
  ~ order_is_highest_index
      (MultipoleStrengthData.order
         (MultipoleStrengthData.new [Num ftwo] [Num fzero] None))
      [Num ftwo] [Num fzero].
Proof.
  unfold order_is_highest_index. vm_compute. discriminate.
Qed.

(** With all coefficients zero there is no such index, and the order
    is 1. *)
Example order_of_zeros :
  let kn := [Num fzero; Num fzero; Num fzero; Num fzero] in
  MultipoleStrengthData.order (MultipoleStrengthData.new kn kn None) = Some 1
  /\ highest_index (trim_zeros kn) (trim_zeros kn) = None.
Proof. split; vm_compute; reflexivity. Qed.

(** [QuadrupoleData(kn=[2.0, 0.0], ks=[0.0, 0.0])] has order 2, the
    minimal order of the class. *)
Example quadrupole_order_floor :
  let kn := [Num ftwo; Num fzero] in
  let ks := [Num fzero; Num fzero] in
  (exists r,
      PoleData.new PoleData.Quadrupole (PoleData.Lists (Some kn) (Some ks))
        None None None None None = Ok r /\
      PoleData.order r = Some 2) /\
  highest_index (trim_zeros kn) (trim_zeros ks) = Some 0.
Proof.
  split; [eexists; split|]; vm_compute; reflexivity.
Qed.

(** [QuadrupoleData(k1=0.1)]: the default arrays, with [k1] written at
    index 1. *)
Lemma order_is_coefficient_count_witness :
  exists r,
    PoleData.new PoleData.Quadrupole (PoleData.Lists None None) None
      (Some f0_1) None None None = Ok r /\
    PoleData.order r = Some 2.
Proof.
  eexists. split.
  - vm_compute. reflexivity.
  - exact (proj2 (proj2 order_is_coefficient_count)
             PoleData.Quadrupole (PoleData.Lists None None) None
             (Some f0_1) None None None _ eq_refl).
Defined.
End MultipoleBinary64.

(** ** [DipoleEdgeData], [ElementID], [RectangularAperture] *)

Section RecordClaims.
Context {num : Type} `{PyFloat num}.

(** C6. Constructing a [DipoleEdgeData] raises [AssertionError] exactly
    when [side] is neither ['entrance'] nor ['exit']; for these two
    values the construction succeeds, and the record holds the
    arguments. *)
Theorem dipole_edge_side_checked (h e1 : num) (side : string) :
  (DipoleEdgeData.new h e1 side = Raise AssertionError <->
   side <> "entrance" /\ side <> "exit") /\
  (side = "entrance" \/ side = "exit" ->
   DipoleEdgeData.new h e1 side = Ok (DipoleEdgeData.mk h e1 side)).
Proof.
  unfold DipoleEdgeData.new, DipoleEdgeData.__post_init__.
  cbn [DipoleEdgeData.side].
  destruct (decide (side ∈ ["entrance"; "exit"])) as [Hin|Hout].
  - rewrite bool_decide_eq_true_2 by exact Hin. cbn.
    apply list_elem_of_In in Hin. simpl in Hin.
    split; [split|reflexivity].
    + discriminate.
    + intros [Hne Hnx]. destruct Hin as [Heq|[Heq|[]]]; congruence.
  - rewrite bool_decide_eq_false_2 by exact Hout. cbn.
    rewrite list_elem_of_In in Hout. simpl in Hout.
    split; [split|].
    + intros _. split; intros Heq; apply Hout; auto.
    + reflexivity.
    + intros [Heq|Heq]; exfalso; apply Hout; auto.
Qed.

(** C7. A zero-valued optional field is stored as [None]: [slot_id] and
    [assembly_id] of an [ElementID], and [kmax] and [kmin] of a
    quadrupole, sextupole or octupole record whose construction
    succeeds; any other value is stored as given. *)
Theorem zero_fields_become_none :
  (forall slot_id assembly_id : option Z,
      let e := ElementID.new slot_id assembly_id in
      (slot_id = Some 0%Z -> ElementID.slot_id e = None) /\
      (slot_id <> Some 0%Z -> ElementID.slot_id e = slot_id) /\
      (assembly_id = Some 0%Z -> ElementID.assembly_id e = None) /\
      (assembly_id <> Some 0%Z -> ElementID.assembly_id e = assembly_id)) /\
  (forall (c : PoleData.pole) (a : PoleData.coefficients num)
          (polarity : option Z) (k k_s kmax kmin : option num)
          (r : PoleData.t num),
      PoleData.new c a polarity k k_s kmax kmin = Ok r ->
      stored_or_none kmax (PoleData.kmax r) /\
      stored_or_none kmin (PoleData.kmin r)).
Proof.
  split.
  - intros slot_id assembly_id e. subst e.
    unfold ElementID.new, ElementID.__post_init__.
    destruct slot_id as [s|], assembly_id as [a|]; cbn.
    all: try (destruct (Z.eqb_spec s 0); cbn).
    all: try (destruct (Z.eqb_spec a 0); cbn).
    all: repeat split; congruence.
  - intros c a polarity k k_s kmax kmin r Hnew.
    apply new_inv in Hnew. destruct Hnew as (_ & _ & ->).
    unfold constructed, stored_or_none. cbn.
    destruct kmax as [x|], kmin as [y|]; cbn.
    all: try destruct (eqb x zero); try destruct (eqb y zero).
    all: split; reflexivity.
Qed.

(** C9. A [RectangularAperture] constructed with an [aperture_size] of
    four entries [left, right, bottom, up] stores the offsets
    [(left + right) / 2.] and [(bottom + up) / 2.] and the two sizes
    [x_offset - left] and [y_offset - bottom]; with an [aperture_size] of
    any other length, the size and the offset are stored as given. *)
Theorem rectangular_aperture_reset :
  (forall (left right bottom up : num) (aperture_type : option (option string))
          (aperture_offset : option (list num)),
      let x_offset := div (add left right) two in
      let y_offset := div (add bottom up) two in
      RectangularAperture.new (Some [left; right; bottom; up])
        aperture_type aperture_offset
      = Ok (RectangularAperture.mk
              [sub x_offset left; sub y_offset bottom]
              (default (Some "circle") aperture_type)
              [x_offset; y_offset])) /\
  (forall (aperture_size : option (list num))
          (aperture_type : option (option string))
          (aperture_offset : option (list num)),
      length (default [zero] aperture_size) <> 4 ->
      RectangularAperture.new aperture_size aperture_type aperture_offset
      = Ok (RectangularAperture.mk
              (default [zero] aperture_size)
              (default (Some "circle") aperture_type)
              (default [zero] aperture_offset))).
Proof.
  split.
  - reflexivity.
  - intros aperture_size aperture_type aperture_offset Hlen.
    unfold RectangularAperture.new, RectangularAperture.__post_init__.
    cbn [RectangularAperture.aperture_size].
    destruct (Nat.eqb_spec (length (default [zero] aperture_size)) 4);
      [contradiction|reflexivity].
Qed.
End RecordClaims.

Section RecordWitnesses.
Import Binary64.

(** [DipoleEdgeData(0.0, 0.1, 'middle')] and
    [DipoleEdgeData(0.0, 0.1, 'exit')]. *)
Lemma dipole_edge_side_checked_witness :
  DipoleEdgeData.new fzero f0_1 "middle" = Raise AssertionError /\
  DipoleEdgeData.new fzero f0_1 "exit"
  = Ok (DipoleEdgeData.mk fzero f0_1 "exit").
Proof.
  split.
  - apply (proj1 (dipole_edge_side_checked fzero f0_1 "middle")).
    split; discriminate.
  - apply (proj2 (dipole_edge_side_checked fzero f0_1 "exit")).
    right. reflexivity.
Defined.

(** [ElementID(slot_id=0, assembly_id=5)] and
    [QuadrupoleData(kmax=0.0, kmin=0.7)]. *)
Lemma zero_fields_become_none_witness :
  (ElementID.slot_id (ElementID.new (Some 0%Z) (Some 5%Z)) = None /\
   ElementID.assembly_id (ElementID.new (Some 0%Z) (Some 5%Z))
   = Some 5%Z) /\
  exists r,
    PoleData.new PoleData.Quadrupole (PoleData.Lists None None) None
      None None (Some fzero) (Some f0_7) = Ok r /\
    PoleData.kmax r = None /\ PoleData.kmin r = Some f0_7.
Proof.
  split.
  - destruct (proj1 (zero_fields_become_none (num := float))
                (Some 0%Z) (Some 5%Z)) as (Hs & _ & _ & Ha).
    split; [apply Hs; reflexivity|apply Ha; discriminate].
  - eexists. split.
    + vm_compute. reflexivity.
    + exact (proj2 zero_fields_become_none
               PoleData.Quadrupole (PoleData.Lists None None) None
               None None (Some fzero) (Some f0_7) _ eq_refl).
Defined.

(** [RectangularAperture(aperture_size=[0.1, 0.7])]: two entries, stored
    as given next to the default offset. *)
Lemma rectangular_aperture_reset_witness :
  RectangularAperture.new (Some [f0_1; f0_7]) None None
  = Ok (RectangularAperture.mk [f0_1; f0_7] (Some "circle") [fzero]).
Proof.
  refine (proj2 rectangular_aperture_reset (Some [f0_1; f0_7]) None None _).
  simpl. lia.
Defined.
End RecordWitnesses.

(** * Further properties *)

(** ** [ElementPosition]: assignments *)

Section PositionAssignments.
Context {num : Type} `{PyFloat num}.
Import ElementPosition.

Lemma new_state_of (length location reference : option num) re ms :
  new length location reference re ms
  = state_of re ms (initial_fields length location reference).
Proof. destruct length, location, reference; reflexivity. Qed.

Lemma assign_state_of re ms (f : fields) (a : assignment) :
  assign (state_of re ms f) a = state_of re ms (track f a).
Proof. destruct f, a; reflexivity. Qed.

Lemma assign_all_state_of re ms (ops : list assignment) :
  forall f : fields,
    assign_all (state_of re ms f) ops = state_of re ms (last_assigned f ops).
Proof.
  induction ops as [|a ops IH]; intros f.
  - reflexivity.
  - unfold assign_all, last_assigned. simpl.
    rewrite assign_state_of. apply IH.
Qed.

Lemma reachable_state_of (length location reference : option num) re ms
    (ops : list assignment) :
  assign_all (new length location reference re ms) ops
  = state_of re ms
      (last_assigned (initial_fields length location reference) ops).
Proof. rewrite new_state_of. apply assign_all_state_of. Qed.

(** X1. The object reached by a constructor call and any sequence of
    assignments holds, for each of [length], [location] and [reference],
    the value it was last given (the constructor argument, or [0.0], when
    it was never assigned), the [_position] dict computed from these three
    values, and the [reference_element] and [mech_sep] it was constructed
    with. *)
Theorem assignments_last_write_wins
    (length location reference : option num) (re : string) (ms : num)
    (ops : list assignment) :
  let p := assign_all (new length location reference re ms) ops in
  let f := last_assigned (initial_fields length location reference) ops in
  _length p = Num (f_length f) /\
  _location p = Num (f_location f) /\
  _reference p = Num (f_reference f) /\
  _position p
  = Some (positions (f_length f) (f_location f) (f_reference f)) /\
  reference_element p = re /\ mech_sep p = ms.
Proof.
  intros p f. subst p f. rewrite reachable_state_of.
  repeat split.
Qed.

(** X2. On a constructed object, [set_position(location, reference)] does
    what the two assignments [location = ...] and [reference = ...] do, in
    either order. *)
Theorem set_position_is_two_assignments
    (length location reference : option num) (re : string) (ms : num)
    (ops : list assignment) (l r : num) :
  let p := assign_all (new length location reference re ms) ops in
  set_position l r p = set_reference (Num r) (set_location (Num l) p) /\
  set_position l r p = set_location (Num l) (set_reference (Num r) p).
Proof.
  intros p. subst p. rewrite reachable_state_of.
  destruct (last_assigned _ ops) as [len loc ref]. split; reflexivity.
Qed.

(** X3. Passing [length], [location] and [reference] to the constructor
    gives the object that constructing without them and assigning them
    afterwards gives, whatever the order of the three assignments. *)
Theorem constructor_is_assignments (len loc ref : num)
    (re : string) (ms : num) (ops : list assignment) :
  ops ≡ₚ [AssignLength len; AssignLocation loc; AssignReference ref] ->
  new (Some len) (Some loc) (Some ref) re ms
  = assign_all (new None None None re ms) ops.
Proof.
  intros Hperm. rewrite !new_state_of, assign_all_state_of.
  f_equal.
  symmetry in Hperm. apply permutations_Permutation in Hperm.
  apply list_elem_of_In in Hperm. simpl in Hperm.
  destruct Hperm as [<-|[<-|[<-|[<-|[<-|[<-|[]]]]]]]; reflexivity.
Qed.

(** X4. Constructing an [ElementPosition] from the [length], [location],
    [reference], [reference_element] and [mech_sep] read off a constructed
    object gives that object again. *)
Theorem position_rebuilt_from_getters
    (length location reference : option num) (re : string) (ms : num)
    (ops : list assignment) :
  let p := assign_all (new length location reference re ms) ops in
  exists len loc ref : num,
    ElementPosition.length p = Num len /\
    ElementPosition.location p = Num loc /\
    ElementPosition.reference p = Num ref /\
    new (Some len) (Some loc) (Some ref) (reference_element p) (mech_sep p)
    = p.
Proof.
  intros p. subst p. rewrite reachable_state_of.
  destruct (last_assigned _ ops) as [len loc ref].
  exists len, loc, ref. repeat split.
Qed.
End PositionAssignments.

Section PositionGetters.
Context {num : Type} `{PyFloat num}.
Import ElementPosition.

Lemma state_of_getters re ms (f : fields) :
  position (state_of re ms f) = Ok (add (f_location f) (f_reference f)) /\
  start (state_of re ms f)
  = Ok (sub (add (f_location f) (f_reference f)) (div (f_length f) two)) /\
  end_ (state_of re ms f)
  = Ok (add (add (f_location f) (f_reference f)) (div (f_length f) two)).
Proof. repeat split. Qed.
End PositionGetters.

Section PositionZeroLength.
Import ElementPosition Binary64.

Lemma binary64_eqb_zero (x : float) :
  eqb x zero = true -> exists s : bool, x = S754_zero s.
Proof.
  destruct x as [s| | |s m e]; simpl; try discriminate.
  - intros _. exists s. reflexivity.
  - destruct s; discriminate.
  - destruct s; discriminate.
Qed.

Lemma binary64_eqb_refl (x : float) : x <> S754_nan -> eqb x x = true.
Proof.
  intros Hnan. destruct x as [s|s| |s m e]; simpl.
  - reflexivity.
  - destruct s; reflexivity.
  - contradiction.
  - unfold SFeqb, SFcompare.
    rewrite Z.compare_refl, Pos.compare_cont_refl.
    destruct s; reflexivity.
Qed.

(** Subtracting or adding a zero does not change a number, up to the sign
    of a zero. *)
Lemma binary64_sub_zero (x : float) (s : bool) :
  x <> S754_nan -> eqb (sub x (S754_zero s)) x = true.
Proof.
  intros Hnan. destruct x as [sx|sx| |sx m e]; simpl.
  - destruct sx, s; reflexivity.
  - destruct sx; reflexivity.
  - contradiction.
  - apply (binary64_eqb_refl (S754_finite sx m e)). discriminate.
Qed.

Lemma binary64_add_zero (x : float) (s : bool) :
  x <> S754_nan -> eqb (add x (S754_zero s)) x = true.
Proof.
  intros Hnan. destruct x as [sx|sx| |sx m e]; simpl.
  - destruct sx, s; reflexivity.
  - destruct sx; reflexivity.
  - contradiction.
  - apply (binary64_eqb_refl (S754_finite sx m e)). discriminate.
Qed.

(** X5. In binary64, an element of zero length ([length == 0.0], or
    [length] omitted) starts and ends at its centre: [start == position]
    and [end == position], unless [location + reference] is not a
    number. *)
Theorem zero_length_starts_and_ends_at_centre
    (length location reference : option float) (re : string) (ms : float) :
  eqb (default zero length) zero = true ->
  let p := new length location reference re ms in
  exists c s e : float,
    position p = Ok c /\ start p = Ok s /\ end_ p = Ok e /\
    (c <> S754_nan -> eqb s c = true /\ eqb e c = true).
Proof.
  intros Hzero p. subst p. rewrite new_state_of.
  destruct (state_of_getters re ms
              (initial_fields length location reference))
    as (Hc & Hs & He).
  eexists _, _, _. split; [exact Hc|]. split; [exact Hs|].
  split; [exact He|].
  cbn [initial_fields f_length f_location f_reference].
  destruct (binary64_eqb_zero _ Hzero) as [s ->].
  intros Hnan. split.
  - exact (binary64_sub_zero _ _ Hnan).
  - exact (binary64_add_zero _ _ Hnan).
Qed.
End PositionZeroLength.

(** ** [ElementID] and [RectangularAperture]: what is stored *)

Section StoredRecords.
Context {num : Type} `{PyFloat num}.

Lemma element_id_new (slot_id assembly_id : option Z) :
  ElementID.new slot_id assembly_id
  = ElementID.mk
      (if ElementID.is_zero slot_id then None else slot_id)
      (if ElementID.is_zero assembly_id then None else assembly_id).
Proof.
  unfold ElementID.new, ElementID.__post_init__. cbn.
  destruct (ElementID.is_zero slot_id); cbn;
    destruct (ElementID.is_zero assembly_id); reflexivity.
Qed.

Lemma element_id_stored (o : option Z) :
  (if ElementID.is_zero o then None else o) <> Some 0%Z /\
  ElementID.is_zero (if ElementID.is_zero o then None else o) = false.
Proof.
  destruct o as [z|]; simpl; [|split; [discriminate|reflexivity]].
  destruct (Z.eqb_spec z 0) as [->|Hne]; simpl.
  - split; [discriminate|reflexivity].
  - split; [congruence|]. apply Z.eqb_neq. exact Hne.
Qed.

(** X6. A constructed [ElementID] never holds [0] as [slot_id] or
    [assembly_id], and constructing an [ElementID] from the two ids of a
    constructed one gives the same record. *)
Theorem element_id_never_zero (slot_id assembly_id : option Z) :
  let e := ElementID.new slot_id assembly_id in
  ElementID.slot_id e <> Some 0%Z /\
  ElementID.assembly_id e <> Some 0%Z /\
  ElementID.new (ElementID.slot_id e) (ElementID.assembly_id e) = e.
Proof.
  intros e. subst e. rewrite element_id_new. cbn.
  destruct (element_id_stored slot_id) as [Hs Hzs].
  destruct (element_id_stored assembly_id) as [Ha Hza].
  split; [exact Hs|]. split; [exact Ha|].
  rewrite element_id_new, Hzs, Hza. reflexivity.
Qed.

Lemma aperture_stored_as_given (aperture_size : option (list num))
    (aperture_type : option (option string))
    (aperture_offset : option (list num)) :
  length (default [zero] aperture_size) <> 4 ->
  RectangularAperture.new aperture_size aperture_type aperture_offset
  = Ok (RectangularAperture.mk (default [zero] aperture_size)
          (default (Some "circle") aperture_type)
          (default [zero] aperture_offset)).
Proof.
  intros Hlen. unfold RectangularAperture.new, RectangularAperture.__post_init__.
  cbn [RectangularAperture.aperture_size].
  destruct (Nat.eqb_spec (length (default [zero] aperture_size)) 4);
    [contradiction|reflexivity].
Qed.

(** X7. Constructing a [RectangularAperture] never raises; the
    [aperture_size] it stores never has four entries; and constructing a
    [RectangularAperture] from the three stored fields gives the same
    record, so the reduction to offset and half-size is applied once. *)
Theorem rectangular_aperture_settles
    (aperture_size : option (list num))
    (aperture_type : option (option string))
    (aperture_offset : option (list num)) :
  exists r : RectangularAperture.t num,
    RectangularAperture.new aperture_size aperture_type aperture_offset
    = Ok r /\
    length (RectangularAperture.aperture_size r) <> 4 /\
    RectangularAperture.new (Some (RectangularAperture.aperture_size r))
      (Some (RectangularAperture.aperture_type r))
      (Some (RectangularAperture.aperture_offset r))
    = Ok r.
Proof.
  assert (Hrebuild : forall r : RectangularAperture.t num,
             length (RectangularAperture.aperture_size r) <> 4 ->
             RectangularAperture.new
               (Some (RectangularAperture.aperture_size r))
               (Some (RectangularAperture.aperture_type r))
               (Some (RectangularAperture.aperture_offset r)) = Ok r).
  { intros [sz ty off] Hlen.
    exact (aperture_stored_as_given (Some sz) (Some ty) (Some off) Hlen). }
  destruct (decide (length (default [zero] aperture_size) = 4))
    as [Hfour|Hother].
  - unfold RectangularAperture.new.
    destruct (default [zero] aperture_size)
      as [|a0 [|a1 [|a2 [|a3 [|a4 rest]]]]]; try discriminate Hfour.
    eexists. split; [reflexivity|].
    split; [|apply Hrebuild]; simpl; lia.
  - eexists. split; [exact (aperture_stored_as_given _ _ _ Hother)|].
    split; [|apply Hrebuild]; exact Hother.
Qed.
End StoredRecords.

(** ** Coefficient arrays: what normalisation keeps *)

Section ArrayContent.
Context {num : Type} `{PyFloat num}.
Implicit Types (l z kn ks : list (pyval num)) (x y : pyval num).

Lemma length_trim_zeros_back l :
  length (trim_zeros l) = trim_back (reverse l) (length l).
Proof.
  unfold trim_zeros. rewrite length_take.
  pose proof (trim_back_le (reverse l) (length l)). lia.
Qed.

(** The trimmed array is a prefix of the array. *)
Lemma lookup_trim_zeros l (i : nat) x :
  trim_zeros l !! i = Some x <->
  l !! i = Some x /\ i < length (trim_zeros l).
Proof.
  rewrite length_trim_zeros_back. unfold trim_zeros.
  apply lookup_take_Some.
Qed.

Lemma nonzero_in_trim l (i : nat) x :
  l !! i = Some x -> nonzero x = true -> i < length (trim_zeros l).
Proof.
  intros Hi Hnz.
  destruct (highest_nonzero_index_ge l i x Hi Hnz) as (j & Hj & Hle).
  rewrite length_trim_zeros, Hj. simpl. lia.
Qed.

(** Entries that are equal to zero at the end of an array are trimmed. *)
Lemma trim_zeros_app_zeros l z :
  Forall (fun x => nonzero x = false) z ->
  trim_zeros (l ++ z) = trim_zeros l.
Proof.
  induction z as [|x z IH] using rev_ind; intros Hz.
  - rewrite app_nil_r. reflexivity.
  - apply Forall_app in Hz. destruct Hz as [Hz Hx].
    apply Forall_inv in Hx. cbv beta in Hx.
    rewrite app_assoc, trim_zeros_snoc, Hx. exact (IH Hz).
Qed.

Lemma normalized_app_zeros l z :
  Forall (fun x => nonzero x = false) z ->
  normalized (l ++ z) = normalized l.
Proof.
  intros Hz. unfold normalized. cbv zeta.
  rewrite (trim_zeros_app_zeros l z Hz). reflexivity.
Qed.

Lemma coefficient_count_app_zeros kn ks (z1 z2 : list (pyval num)) :
  Forall (fun x => nonzero x = false) z1 ->
  Forall (fun x => nonzero x = false) z2 ->
  coefficient_count (kn ++ z1) (ks ++ z2) = coefficient_count kn ks.
Proof.
  intros Hz1 Hz2. rewrite !coefficient_count_max, <- !length_trim_zeros.
  rewrite (trim_zeros_app_zeros kn z1 Hz1), (trim_zeros_app_zeros ks z2 Hz2).
  reflexivity.
Qed.

(** Every entry of a normalised and padded array is the entry of the
    array at that index, or the zero [np.zeros] and [np.pad] write. *)
Lemma lookup_padded l (k i : nat) y :
  pad (normalized l) k !! i = Some y -> l !! i = Some y \/ y = Num zero.
Proof.
  unfold pad. intros Hy. apply lookup_app_Some in Hy.
  destruct Hy as [Hy|[_ Hy]].
  - unfold normalized in Hy. cbv zeta in Hy.
    destruct (length (trim_zeros l) =? 0)%nat.
    + right. apply lookup_replicate_1 in Hy. apply Hy.
    + left. apply lookup_trim_zeros in Hy. apply Hy.
  - right. apply lookup_replicate_1 in Hy. apply Hy.
Qed.

(** A non-zero entry of the array stays where it is. *)
Lemma lookup_padded_nonzero l (k i : nat) x :
  l !! i = Some x -> nonzero x = true ->
  pad (normalized l) k !! i = Some x.
Proof.
  intros Hi Hnz. pose proof (nonzero_in_trim l i x Hi Hnz) as Hlt.
  unfold pad. apply lookup_app_l_Some.
  unfold normalized. cbv zeta.
  destruct (Nat.eqb_spec (length (trim_zeros l)) 0) as [Hz|_]; [lia|].
  apply lookup_trim_zeros. split; assumption.
Qed.

Lemma thin_update_arrays_idem (min_order : nat)
    (m : ThinMultipoleStrengthData.t num) :
  ThinMultipoleStrengthData._update_arrays min_order
    (ThinMultipoleStrengthData._update_arrays min_order m)
  = ThinMultipoleStrengthData._update_arrays min_order m.
Proof.
  rewrite (thin_update_arrays_unfold min_order m). cbv zeta.
  rewrite thin_update_arrays_unfold. cbv zeta. simpl.
  rewrite coefficient_count_pad, !normalized_pad_normalized.
  reflexivity.
Qed.
End ArrayContent.

Section MultipoleContent.
Context {num : Type} `{PyFloat num}.

(** X9. Entries equal to zero at the end of the input arrays do not
    matter: a [MultipoleStrengthData], and a [ThinMultipoleStrengthData],
    constructed from [kn] and [ks] extended by such entries is the record
    constructed from [kn] and [ks]. *)
Theorem trailing_zeros_ignored (kn ks z1 z2 : list (pyval num))
    (polarity : option Z) :
  Forall (fun x => nonzero x = false) z1 ->
  Forall (fun x => nonzero x = false) z2 ->
  MultipoleStrengthData.new (kn ++ z1) (ks ++ z2) polarity
  = MultipoleStrengthData.new kn ks polarity /\
  ThinMultipoleStrengthData.new (kn ++ z1) (ks ++ z2) polarity
  = ThinMultipoleStrengthData.new kn ks polarity.
Proof.
  intros Hz1 Hz2.
  unfold MultipoleStrengthData.new, MultipoleStrengthData.__post_init__,
    ThinMultipoleStrengthData.new, ThinMultipoleStrengthData.__post_init__.
  rewrite !update_arrays_unfold, !thin_update_arrays_unfold. cbn.
  rewrite (coefficient_count_app_zeros kn ks z1 z2 Hz1 Hz2).
  rewrite (normalized_app_zeros kn z1 Hz1), (normalized_app_zeros ks z2 Hz2).
  split; reflexivity.
Qed.

(** X10. Normalisation keeps the coefficients in place: every non-zero
    entry of the input [kn] ([ks]) is found at the same index of the
    stored array, and every entry of the stored array is the input entry
    at that index or [0.0]. *)
Theorem coefficients_kept_in_place (kn ks : list (pyval num))
    (polarity : option Z) (i : nat) (x : pyval num) :
  let m := MultipoleStrengthData.new kn ks polarity in
  (kn !! i = Some x -> nonzero x = true ->
   MultipoleStrengthData.kn m !! i = Some x) /\
  (ks !! i = Some x -> nonzero x = true ->
   MultipoleStrengthData.ks m !! i = Some x) /\
  (MultipoleStrengthData.kn m !! i = Some x ->
   kn !! i = Some x \/ x = Num zero) /\
  (MultipoleStrengthData.ks m !! i = Some x ->
   ks !! i = Some x \/ x = Num zero).
Proof.
  intros m. subst m.
  unfold MultipoleStrengthData.new, MultipoleStrengthData.__post_init__.
  rewrite update_arrays_unfold. cbn.
  split; [|split; [|split]].
  - apply lookup_padded_nonzero.
  - apply lookup_padded_nonzero.
  - apply lookup_padded.
  - apply lookup_padded.
Qed.

(** X11. Constructing a [ThinMultipoleStrengthData] from the [knl], [ksl]
    and [polarity] of a constructed one gives the same record. *)
Theorem thin_construction_idempotent
    (knl ksl : list (pyval num)) (polarity : option Z) :
  let m := ThinMultipoleStrengthData.new knl ksl polarity in
  ThinMultipoleStrengthData.new (ThinMultipoleStrengthData.knl m)
    (ThinMultipoleStrengthData.ksl m) (ThinMultipoleStrengthData.polarity m)
  = m.
Proof.
  intros m. subst m.
  exact (thin_update_arrays_idem 1
           (ThinMultipoleStrengthData.mk knl ksl polarity None)).
Qed.
End MultipoleContent.

(** ** Quadrupole, sextupole and octupole records: construction and the
    coefficient properties *)

Section PoleContent.
Context {num : Type} `{PyFloat num}.
Import PoleData.

(** The shape of the record a successful construction returns. *)
Lemma constructed_shape (c : pole) (a : coefficients num)
    (polarity : option Z) (k k_s kmax kmin : option num) :
  let r := constructed c a polarity k k_s kmax kmin in
  exists o : nat,
    order r = Some o /\ min_order c <= o /\
    length (kn r) = o /\ length (ks r) = o /\
    kn r = pad (normalized (effective_kn c a k k_s))
               (o - length (normalized (effective_kn c a k k_s))) /\
    ks r = pad (normalized (effective_ks c a k_s))
               (o - length (normalized (effective_ks c a k_s))).
Proof.
  intros r. subst r. unfold constructed, order, kn, ks. cbn [base].
  rewrite update_arrays_unfold. cbn.
  destruct (normalized_le_order (effective_kn c a k k_s)
              (effective_ks c a k_s) (min_order c)) as [Hn Hs].
  eexists. split; [reflexivity|]. split; [lia|].
  split; [apply length_pad_to; exact Hn|].
  split; [apply length_pad_to; exact Hs|].
  split; reflexivity.
Qed.

Lemma index_lt_min_order (c : pole) : index c < min_order c.
Proof. destruct c; simpl; lia. Qed.

(** What a padded array holds at an index the input array reaches. *)
Lemma lookup_padded_at (l : list (pyval num)) (n i : nat) (x : num) :
  l !! i = Some (Num x) -> i < length (pad (normalized l) n) ->
  exists v : num,
    pad (normalized l) n !! i = Some (Num v) /\
    (v = x \/ eqb x zero = true /\ v = zero).
Proof.
  intros Hl Hlt.
  destruct (nonzero (Num x)) eqn:Hnz.
  - exists x. split; [|left; reflexivity].
    apply lookup_padded_nonzero; assumption.
  - destruct (lookup_lt_is_Some_2 _ _ Hlt) as [y Hy].
    destruct (lookup_padded l n i y Hy) as [Hsame| ->].
    + exists x. split; [congruence|left; reflexivity].
    + exists zero. split; [exact Hy|]. right.
      simpl in Hnz. apply negb_false_iff in Hnz. split; [exact Hnz|reflexivity].
Qed.

Lemma opt_is_zero_stored (o : option num) :
  opt_is_zero (if opt_is_zero o then None else o) = false.
Proof.
  destruct o as [x|]; simpl; [|reflexivity].
  destruct (eqb x zero) eqn:Hx; simpl; [reflexivity|exact Hx].
Qed.

(** On a constructed record both coefficient properties return a float. *)
Lemma pole_getter_values (c : pole) (a : coefficients num)
    (polarity : option Z) (k k_s kmax kmin : option num) (r : t num) :
  new c a polarity k k_s kmax kmin = Ok r ->
  exists v w : num,
    PoleData.k c r = Ok (Num v) /\ PoleData.k_s c r = Ok (Num w).
Proof.
  intros Hnew. apply new_inv in Hnew. destruct Hnew as (Hn & Hs & ->).
  destruct (constructed_shape c a polarity k k_s kmax kmin)
    as (o & _ & Hmin & Hlkn & Hlks & Hkn & Hks).
  pose proof (index_lt_min_order c) as Hidx.
  assert (Hen : exists x, effective_kn c a k k_s !! index c = Some (Num x)).
  { unfold effective_kn, effective_ks.
    destruct a as [okn oks|l]; cbn [is_shared kn_arg ks_arg] in *;
      eexists; apply list_lookup_insert_eq; assumption. }
  assert (Hes : exists x, effective_ks c a k_s !! index c = Some (Num x)).
  { unfold effective_ks. eexists. apply list_lookup_insert_eq. exact Hs. }
  destruct Hen as [x Hen]. destruct Hes as [y Hes].
  destruct (lookup_padded_at _
              (o - length (normalized (effective_kn c a k k_s)))
              _ _ Hen) as (v & Hv & _).
  { rewrite <- Hkn, Hlkn. lia. }
  destruct (lookup_padded_at _
              (o - length (normalized (effective_ks c a k_s)))
              _ _ Hes) as (w & Hw & _).
  { rewrite <- Hks, Hlks. lia. }
  exists v, w. unfold PoleData.k, PoleData.k_s, getitem.
  rewrite Hkn, Hv, Hks, Hw. auto.
Qed.

(** X12. The construction of a quadrupole, sextupole or octupole record
    returns when both [kn] and [ks] reach the index of the class's
    coefficient (1, 2 or 3), and raises [IndexError] when one of them
    does not; with both arrays omitted it always returns. *)
Theorem pole_construction_bounds (c : pole) (a : coefficients num)
    (polarity : option Z) (k k_s kmax kmin : option num) :
  (index c < length (kn_arg a) /\ index c < length (ks_arg a) ->
   exists r, new c a polarity k k_s kmax kmin = Ok r) /\
  (length (kn_arg a) <= index c \/ length (ks_arg a) <= index c ->
   new c a polarity k k_s kmax kmin = Raise IndexError) /\
  (exists r, new c (Lists None None) polarity k k_s kmax kmin = Ok r).
Proof.
  split; [|split].
  - intros [Hn Hs]. eexists. apply new_Ok; assumption.
  - apply new_Raise.
  - eexists. apply new_Ok; destruct c; simpl; lia.
Qed.

(** X13. After a successful construction of a quadrupole, sextupole or
    octupole record the two coefficient arrays have the same length, that
    length is the record's [order], and it is at least the class's minimal
    order (2, 3 or 4). *)
Theorem pole_arrays_have_order_length (c : pole) (a : coefficients num)
    (polarity : option Z) (k k_s kmax kmin : option num) (r : t num) :
  new c a polarity k k_s kmax kmin = Ok r ->
  exists n : nat,
    order r = Some n /\ length (kn r) = n /\ length (ks r) = n /\
    min_order c <= n.
Proof.
  intros Hnew. apply new_inv in Hnew. destruct Hnew as (_ & _ & ->).
  destruct (constructed_shape c a polarity k k_s kmax kmin)
    as (o & Ho & Hmin & Hkn & Hks & _).
  exists o. auto.
Qed.

(** X14. On a constructed quadrupole, sextupole or octupole record the
    properties [k1]/[k1s] ([k2]/[k2s], [k3]/[k3s]) never raise, and they
    return the constructor arguments [k] and [k_s] ([0.0] when omitted),
    whatever [kn] and [ks] held at that index; a value equal to zero may
    come back as [0.0]. When one list object was passed for [kn] and [ks],
    both return the argument [k_s]. *)
Theorem pole_getter_returns_argument (c : pole) (a : coefficients num)
    (polarity : option Z) (k k_s kmax kmin : option num) (r : t num) :
  new c a polarity k k_s kmax kmin = Ok r ->
  let given_k := default zero (if is_shared a then k_s else k) in
  let given_k_s := default zero k_s in
  exists v w : num,
    PoleData.k c r = Ok (Num v) /\ PoleData.k_s c r = Ok (Num w) /\
    (v = given_k \/ eqb given_k zero = true /\ v = zero) /\
    (w = given_k_s \/ eqb given_k_s zero = true /\ w = zero).
Proof.
  intros Hnew given_k given_k_s.
  apply new_inv in Hnew. destruct Hnew as (Hn & Hs & ->).
  destruct (constructed_shape c a polarity k k_s kmax kmin)
    as (o & _ & Hmin & Hlkn & Hlks & Hkn & Hks).
  pose proof (index_lt_min_order c) as Hidx.
  assert (Hen : effective_kn c a k k_s !! index c = Some (Num given_k)).
  { unfold effective_kn, effective_ks, given_k.
    destruct a as [okn oks|l]; cbn [is_shared kn_arg ks_arg] in *;
      apply list_lookup_insert_eq; assumption. }
  assert (Hes : effective_ks c a k_s !! index c = Some (Num given_k_s)).
  { unfold effective_ks, given_k_s. apply list_lookup_insert_eq. exact Hs. }
  destruct (lookup_padded_at _
              (o - length (normalized (effective_kn c a k k_s)))
              _ _ Hen) as (v & Hv & Hvk).
  { rewrite <- Hkn, Hlkn. lia. }
  destruct (lookup_padded_at _
              (o - length (normalized (effective_ks c a k_s)))
              _ _ Hes) as (w & Hw & Hwk).
  { rewrite <- Hks, Hlks. lia. }
  exists v, w. unfold PoleData.k, PoleData.k_s, getitem.
  rewrite Hkn, Hv, Hks, Hw. auto.
Qed.
End PoleContent.

Section PoleRoundTrips.
Context {num : Type} `{PyFloat num}.
Import PoleData.

(** Updating the arrays of an updated record again changes nothing,
    whatever [order] held. *)
Lemma update_arrays_again (min_order : nat)
    (m : MultipoleStrengthData.t num) (o : option nat) :
  let u := MultipoleStrengthData._update_arrays min_order m in
  MultipoleStrengthData._update_arrays min_order
    (MultipoleStrengthData.mk (MultipoleStrengthData.kn u)
       (MultipoleStrengthData.ks u) (MultipoleStrengthData.polarity u) o)
  = u.
Proof. exact (update_arrays_idem min_order m). Qed.

(** X15. Constructing a quadrupole, sextupole or octupole record from
    what a constructed one exposes ([kn], [ks], [polarity], the two
    coefficient properties, [kmax] and [kmin]) succeeds and gives the same
    record. *)
Theorem pole_rebuilt_from_properties (c : pole) (a : coefficients num)
    (polarity : option Z) (k k_s kmax kmin : option num) (r : t num) :
  new c a polarity k k_s kmax kmin = Ok r ->
  exists v w : num,
    PoleData.k c r = Ok (Num v) /\ PoleData.k_s c r = Ok (Num w) /\
    new c (Lists (Some (kn r)) (Some (ks r))) (PoleData.polarity r)
      (Some v) (Some w) (PoleData.kmax r) (PoleData.kmin r)
    = Ok r.
Proof.
  intros Hnew.
  destruct (pole_getter_values c a polarity k k_s kmax kmin r Hnew)
    as (v & w & Hv & Hw).
  exists v, w. split; [exact Hv|]. split; [exact Hw|].
  apply new_inv in Hnew. destruct Hnew as (_ & _ & ->).
  destruct (constructed_shape c a polarity k k_s kmax kmin)
    as (o & _ & Hmin & Hlkn & Hlks & _).
  pose proof (index_lt_min_order c) as Hidx.
  rewrite new_Ok by (cbn [kn_arg ks_arg default from_option id]; lia).
  unfold constructed at 1, effective_kn, effective_ks.
  cbn [is_shared kn_arg ks_arg default from_option id].
  unfold PoleData.k, PoleData.k_s, getitem in Hv, Hw.
  destruct (kn (constructed c a polarity k k_s kmax kmin) !! index c)
    as [y|] eqn:Hy; [|discriminate].
  injection Hv as ->.
  destruct (ks (constructed c a polarity k k_s kmax kmin) !! index c)
    as [y|] eqn:Hz; [|discriminate].
  injection Hw as ->.
  rewrite (list_insert_id _ _ _ Hy), (list_insert_id _ _ _ Hz).
  unfold constructed, kn, ks, PoleData.polarity.
  cbn [base PoleData.kmax PoleData.kmin].
  rewrite update_arrays_again, !opt_is_zero_stored. reflexivity.
Qed.
End PoleRoundTrips.

Section PoleSetters.
Context {num : Type} `{PyFloat num}.
Import PoleData.

(** The order of a constructed record, read off its stored arrays. *)
Lemma constructed_order (c : pole) (a : coefficients num)
    (polarity : option Z) (k k_s kmax kmin : option num) :
  let r := constructed c a polarity k k_s kmax kmin in
  order r = Some (coefficient_count (kn r) (ks r) `max` min_order c).
Proof.
  intros r. subst r. unfold constructed, order, kn, ks. cbn [base].
  rewrite update_arrays_unfold. cbn.
  rewrite coefficient_count_pad. f_equal. destruct c; simpl; lia.
Qed.

(** X16. On a quadrupole, sextupole or octupole record constructed from
    lists of floats (or with the arrays omitted), so that its arrays are
    float64, assigning a float to the coefficient property [k1] ([k2],
    [k3]) never raises; the property then returns that float; the other
    entries of [kn], the array [ks], [kmax], [kmin] and [order] are as
    before; and [order] is still the larger of the class's minimal order
    and the number of coefficients up to the highest non-zero one. *)
Theorem pole_setter_then_getter (c : pole) (a : coefficients num)
    (polarity : option Z) (k k_s kmax kmin : option num) (r : t num)
    (v : num) :
  new c a polarity k k_s kmax kmin = Ok r ->
  exists r' : t num,
    set_k c (Num v) r = Ok r' /\
    PoleData.k c r' = Ok (Num v) /\
    (forall j : nat, j <> index c -> kn r' !! j = kn r !! j) /\
    ks r' = ks r /\ PoleData.kmax r' = PoleData.kmax r /\
    PoleData.kmin r' = PoleData.kmin r /\ order r' = order r /\
    order r' = Some (coefficient_count (kn r') (ks r') `max` min_order c).
Proof.
  intros Hnew. apply new_inv in Hnew. destruct Hnew as (_ & _ & ->).
  destruct (constructed_shape c a polarity k k_s kmax kmin)
    as (o & Ho & Hmin & Hlkn & Hlks & _).
  pose proof (constructed_order c a polarity k k_s kmax kmin) as Horder.
  cbv zeta in Horder.
  pose proof (index_lt_min_order c) as Hidx.
  set (r := constructed c a polarity k k_s kmax kmin) in *.
  assert (Hshared : shared r = false) by reflexivity.
  exists (with_arrays r (<[index c := Num v]> (kn r)) (ks r)).
  split.
  { unfold set_k. rewrite setitem_Ok by lia. rewrite Hshared. reflexivity. }
  split.
  { unfold PoleData.k. cbn [with_arrays kn base MultipoleStrengthData.kn].
    apply getitem_insert. lia. }
  split.
  { intros j Hj. cbn [with_arrays kn base MultipoleStrengthData.kn].
    apply list_lookup_insert_ne. congruence. }
  repeat (split; [reflexivity|]).
  cbn [with_arrays order kn ks base MultipoleStrengthData.order
       MultipoleStrengthData.kn MultipoleStrengthData.ks].
  fold (order r) (kn r) (ks r). rewrite Horder. f_equal.
  destruct (lookup_lt_is_Some_2 (ks r) (index c)) as [y Hy]; [lia|].
  rewrite <- (list_insert_id (ks r) (index c) y Hy) at 2.
  replace (min_order c) with (S (index c)) by (destruct c; reflexivity).
  symmetry. apply coefficient_count_insert.
Qed.
End PoleSetters.

(** ** Comparison of records *)

Section Binary64Close.
Import Binary64.

Lemma shr_1_nonneg (mrs : shr_record) :
  (0 <= shr_m mrs)%Z -> (0 <= shr_m (shr_1 mrs))%Z.
Proof.
  destruct mrs as [m r s]. destruct m as [|p|p]; simpl; try lia;
    destruct p; simpl; lia.
Qed.

Lemma iter_shr_1_nonneg (p : positive) :
  forall mrs : shr_record,
    (0 <= shr_m mrs)%Z -> (0 <= shr_m (SpecFloat.iter_pos shr_1 p mrs))%Z.
Proof.
  induction p as [p IH|p IH|]; intros mrs Hm; simpl.
  - apply IH, IH, shr_1_nonneg, Hm.
  - apply IH, IH, Hm.
  - apply shr_1_nonneg, Hm.
Qed.

Lemma shr_fexp_nonneg (m e : Z) (l : location) :
  (0 <= m)%Z -> (0 <= shr_m (fst (shr_fexp prec emax m e l)))%Z.
Proof.
  intros Hm. unfold shr_fexp, shr.
  assert (Hrec : (0 <= shr_m (shr_record_of_loc m l))%Z)
    by (destruct l as [|[]]; exact Hm).
  destruct (fexp prec emax (Zdigits2 m + e) - e)%Z; simpl; try exact Hrec.
  apply iter_shr_1_nonneg, Hrec.
Qed.

Lemma round_nearest_even_nonneg (m : Z) (l : location) :
  (0 <= m)%Z -> (0 <= round_nearest_even m l)%Z.
Proof.
  intros Hm. destruct l as [|[]]; simpl; try destruct (Z.even m); lia.
Qed.

(** Rounding a mantissa that is not negative, with a positive sign, gives
    a number that is not negative. *)
Lemma binary_round_aux_not_negative (m e : Z) (l : location) :
  (0 <= m)%Z -> not_negative (binary_round_aux prec emax false m e l) = true.
Proof.
  intros Hm. unfold binary_round_aux.
  pose proof (shr_fexp_nonneg m e l Hm) as H1.
  destruct (shr_fexp prec emax m e l) as [mrs' e']. simpl in H1.
  pose proof (shr_fexp_nonneg
                (round_nearest_even (shr_m mrs') (loc_of_shr_record mrs'))
                e' loc_Exact (round_nearest_even_nonneg _ _ H1)) as H2.
  destruct (shr_fexp prec emax _ e' loc_Exact) as [mrs'' e'']. simpl in H2.
  destruct (shr_m mrs'') as [|q|q]; [reflexivity| |lia].
  destruct (e'' <=? emax - prec)%Z; reflexivity.
Qed.

Lemma binary_round_not_negative (m : positive) (e : Z) :
  not_negative (binary_round prec emax false m e) = true.
Proof.
  unfold binary_round. destruct (shl_align m e _) as [mz ez].
  apply binary_round_aux_not_negative. lia.
Qed.

Lemma zero_le_not_negative (x : float) :
  not_negative x = true -> SFleb (S754_zero false) x = true.
Proof.
  destruct x as [[|]|[|]| |[|] m e]; simpl; intros Hx;
    try discriminate Hx; reflexivity.
Qed.

(** The tolerance [atol + rtol * abs(y)] of a finite [y] is a number that
    is not negative. *)
Lemma tolerance_not_negative (y : float) :
  is_finite y = true ->
  not_negative (SFadd prec emax f1e_8 (SFmul prec emax f1e_8 (SFabs y)))
  = true.
Proof.
  destruct y as [s|s| |s m e]; simpl; intros Hy; try discriminate Hy.
  - reflexivity.
  - pose proof (binary_round_aux_not_negative
                  (Z.pos (6044629098073146 * m)) (-79 + e) loc_Exact) as Hmul.
    unfold f1e_8, SFmul. cbn [xorb].
    destruct (binary_round_aux prec emax false
                (Z.pos (6044629098073146 * m)) (-79 + e) loc_Exact)
      as [[|]|[|]| |[|] m' e']; try (specialize (Hmul ltac:(lia));
                                     discriminate Hmul).
    + reflexivity.
    + reflexivity.
    + unfold SFadd, binary_normalize, cond_Zopp. simpl Z.add.
      apply binary_round_not_negative.
Qed.

Lemma sub_self_finite (x : float) :
  is_finite x = true -> SFabs (SFsub prec emax x x) = S754_zero false.
Proof.
  destruct x as [s|s| |s m e]; simpl; intros Hx; try discriminate Hx.
  - destruct s; reflexivity.
  - rewrite Z.sub_diag. reflexivity.
Qed.

(** A binary64 number is close to itself, unless it is not a number. *)
Lemma isclose_self (x : float) : isclose x x = true <-> x <> S754_nan.
Proof.
  unfold isclose, binary64_isclose.
  destruct (is_finite x) eqn:Hfin; cbn [andb].
  - rewrite (sub_self_finite x Hfin).
    rewrite (zero_le_not_negative _ (tolerance_not_negative x Hfin)).
    split; [intros _ ->; discriminate Hfin|reflexivity].
  - destruct x as [s|s| |s m e]; try discriminate Hfin.
    + destruct s; simpl; split; (reflexivity || discriminate).
    + simpl. split; [discriminate|]. intros Hnan. contradiction.
Qed.
End Binary64Close.

Section ComparisonFacts.
Context {num : Type} `{PyFloat num} `{PyClose num}.
Implicit Types (a b l : list (pyval num)).

(** Arrays of floats: no entry is a property object. *)
Lemma floats_fmap (xs : list num) :
  Forall (fun c => is_property c = false) (Num <$> xs).
Proof. apply Forall_fmap, Forall_forall. reflexivity. Qed.

Lemma floats_padded l (k : nat) :
  Forall (fun c => is_property c = false) l ->
  Forall (fun c => is_property c = false) (pad (normalized l) k).
Proof.
  intros Hl. apply Forall_lookup. intros i y Hy.
  destruct (lookup_padded l k i y Hy) as [Hin| ->]; [|reflexivity].
  exact (proj1 (Forall_lookup _ l) Hl i y Hin).
Qed.

Lemma isclose_arrays_floats a :
  forall b,
    Forall (fun c => is_property c = false) a ->
    Forall (fun c => is_property c = false) b ->
    exists r, isclose_arrays a b = Ok r.
Proof.
  induction a as [|x a IH]; intros b Ha Hb.
  - exists []. reflexivity.
  - destruct b as [|y b]; [exists []; reflexivity|].
    apply Forall_cons in Ha. destruct Ha as [Hx Ha].
    apply Forall_cons in Hb. destruct Hb as [Hy Hb].
    destruct (IH b Ha Hb) as [r Hr].
    destruct x as [x|]; [|discriminate Hx].
    destruct y as [y|]; [|discriminate Hy].
    exists (isclose x y :: r). simpl. rewrite Hr. reflexivity.
Qed.

(** An array of floats compared with itself: [False] is in the result
    exactly when an entry is not close to itself. *)
Lemma isclose_arrays_self l :
  Forall (fun c => is_property c = false) l ->
  exists r,
    isclose_arrays l l = Ok r /\
    (false ∈ r <-> exists x, Num x ∈ l /\ isclose x x = false).
Proof.
  induction l as [|c l IH]; intros Hl.
  - exists []. split; [reflexivity|]. split.
    + intros Hin. inversion Hin.
    + intros (x & Hin & _). inversion Hin.
  - apply Forall_cons in Hl. destruct Hl as [Hc Hl].
    destruct (IH Hl) as (r & Hr & Hiff).
    destruct c as [x|]; [|discriminate Hc].
    exists (isclose x x :: r). split; [simpl; rewrite Hr; reflexivity|].
    rewrite elem_of_cons, Hiff. split.
    + intros [Hx|(y & Hy & Hclose)].
      * exists x. split; [left|symmetry; exact Hx].
      * exists y. split; [right; exact Hy|exact Hclose].
    + intros (y & Hy & Hclose). apply elem_of_cons in Hy.
      destruct Hy as [[= ->]|Hy].
      * left. symmetry. exact Hclose.
      * right. exists y. split; assumption.
Qed.

(** What a comparison that returns [True] has checked. *)
Lemma eq_true_shape (m1 m2 : MultipoleStrengthData.t num) :
  MultipoleStrengthData.__eq__ m1 m2 = Ok true ->
  MultipoleStrengthData.polarity m1 = MultipoleStrengthData.polarity m2 /\
  length (MultipoleStrengthData.kn m1) = length (MultipoleStrengthData.kn m2)
  /\
  length (MultipoleStrengthData.ks m1) = length (MultipoleStrengthData.ks m2).
Proof.
  unfold MultipoleStrengthData.__eq__. case_bool_decide as Hpol;
    [discriminate|].
  cbn [eq_keys].
  destruct (Nat.eqb_spec (length (MultipoleStrengthData.kn m1))
              (length (MultipoleStrengthData.kn m2))) as [Hkn|_];
    [|discriminate]. cbn [negb].
  destruct (isclose_arrays (MultipoleStrengthData.kn m1) _) as [r1|e1];
    cbn; [|discriminate].
  case_bool_decide; [discriminate|].
  destruct (Nat.eqb_spec (length (MultipoleStrengthData.ks m1))
              (length (MultipoleStrengthData.ks m2))) as [Hks|_];
    [|discriminate].
  intros _. auto.
Qed.

(** Comparing records whose arrays hold floats never raises. *)
Lemma eq_returns (m1 m2 : MultipoleStrengthData.t num) :
  Forall (fun c => is_property c = false) (MultipoleStrengthData.kn m1) ->
  Forall (fun c => is_property c = false) (MultipoleStrengthData.ks m1) ->
  Forall (fun c => is_property c = false) (MultipoleStrengthData.kn m2) ->
  Forall (fun c => is_property c = false) (MultipoleStrengthData.ks m2) ->
  exists b : bool, MultipoleStrengthData.__eq__ m1 m2 = Ok b.
Proof.
  intros Hn1 Hs1 Hn2 Hs2. unfold MultipoleStrengthData.__eq__.
  case_bool_decide; [eexists; reflexivity|]. cbn [eq_keys].
  destruct (negb _); [eexists; reflexivity|].
  destruct (isclose_arrays_floats _ _ Hn1 Hn2) as [r1 ->]. cbn.
  case_bool_decide; [eexists; reflexivity|].
  destruct (negb _); [eexists; reflexivity|].
  destruct (isclose_arrays_floats _ _ Hs1 Hs2) as [r2 ->]. cbn.
  case_bool_decide; eexists; reflexivity.
Qed.

(** A record whose arrays hold floats compared with itself. *)
Lemma eq_self (m : MultipoleStrengthData.t num) :
  Forall (fun c => is_property c = false) (MultipoleStrengthData.kn m) ->
  Forall (fun c => is_property c = false) (MultipoleStrengthData.ks m) ->
  MultipoleStrengthData.__eq__ m m = Ok true <->
  (forall x, Num x ∈ MultipoleStrengthData.kn m -> isclose x x = true) /\
  (forall x, Num x ∈ MultipoleStrengthData.ks m -> isclose x x = true).
Proof.
  intros Hn Hs. unfold MultipoleStrengthData.__eq__.
  rewrite bool_decide_eq_false_2 by (intros Hne; apply Hne; reflexivity).
  cbn [eq_keys]. rewrite !Nat.eqb_refl. cbn [negb].
  destruct (isclose_arrays_self _ Hn) as (r1 & -> & Hr1).
  destruct (isclose_arrays_self _ Hs) as (r2 & -> & Hr2). cbn.
  assert (Hno : forall (r : list bool) (l : list (pyval num)),
             (false ∈ r <-> exists x, Num x ∈ l /\ isclose x x = false) ->
             false ∉ r <-> forall x, Num x ∈ l -> isclose x x = true).
  { intros r l Hr. rewrite Hr. split.
    - intros Hnone x Hx. destruct (isclose x x) eqn:Hc; [reflexivity|].
      exfalso. apply Hnone. exists x. split; assumption.
    - intros Hall (x & Hx & Hc). rewrite (Hall x Hx) in Hc. discriminate. }
  case_bool_decide as H1.
  - split; [discriminate|]. intros [Hall _].
    exfalso. exact (proj2 (Hno _ _ Hr1) Hall H1).
  - case_bool_decide as H2.
    + split; [discriminate|]. intros [_ Hall].
      exfalso. exact (proj2 (Hno _ _ Hr2) Hall H2).
    + split; [|reflexivity]. intros _.
      split; [apply (Hno _ _ Hr1)|apply (Hno _ _ Hr2)]; assumption.
Qed.

Lemma new_floats (kn ks : list num) (polarity : option Z) :
  let m := MultipoleStrengthData.new (Num <$> kn) (Num <$> ks) polarity in
  Forall (fun c => is_property c = false) (MultipoleStrengthData.kn m) /\
  Forall (fun c => is_property c = false) (MultipoleStrengthData.ks m) /\
  MultipoleStrengthData.polarity m = polarity /\
  MultipoleStrengthData.order m
  = Some (length (MultipoleStrengthData.kn m)).
Proof.
  intros m. subst m.
  unfold MultipoleStrengthData.new, MultipoleStrengthData.__post_init__.
  rewrite update_arrays_unfold. cbn.
  split; [apply floats_padded, floats_fmap|].
  split; [apply floats_padded, floats_fmap|].
  split; [reflexivity|].
  destruct (normalized_le_order (Num <$> kn) (Num <$> ks) 1) as [Hn _].
  rewrite (length_pad_to _ _ Hn). reflexivity.
Qed.

(** X17. Comparing two constructed [MultipoleStrengthData] with [==]
    never raises, and when it returns [True] the two records have the
    same polarity and the same order: records of different order are never
    equal, however close their coefficients. *)
Theorem equal_records_same_shape (kn1 ks1 kn2 ks2 : list num)
    (p1 p2 : option Z) :
  let m1 := MultipoleStrengthData.new (Num <$> kn1) (Num <$> ks1) p1 in
  let m2 := MultipoleStrengthData.new (Num <$> kn2) (Num <$> ks2) p2 in
  (exists b : bool, MultipoleStrengthData.__eq__ m1 m2 = Ok b) /\
  (MultipoleStrengthData.__eq__ m1 m2 = Ok true ->
   p1 = p2 /\
   MultipoleStrengthData.order m1 = MultipoleStrengthData.order m2).
Proof.
  intros m1 m2.
  destruct (new_floats kn1 ks1 p1) as (Hn1 & Hs1 & Hp1 & Ho1).
  destruct (new_floats kn2 ks2 p2) as (Hn2 & Hs2 & Hp2 & Ho2).
  fold m1 in Hn1, Hs1, Hp1, Ho1. fold m2 in Hn2, Hs2, Hp2, Ho2.
  split; [exact (eq_returns m1 m2 Hn1 Hs1 Hn2 Hs2)|].
  intros Heq. destruct (eq_true_shape m1 m2 Heq) as (Hpol & Hlen & _).
  split; [congruence|]. rewrite Ho1, Ho2, Hlen. reflexivity.
Qed.
End ComparisonFacts.

Section ComparisonBinary64.
Import Binary64.

Lemma nan_kept (l : list float) (k : nat) :
  Num S754_nan ∈ pad (normalized (Num <$> l)) k <-> S754_nan ∈ l.
Proof.
  split.
  - intros Hin. apply list_elem_of_lookup in Hin. destruct Hin as [i Hi].
    destruct (lookup_padded _ _ _ _ Hi) as [Hl|Hz]; [|discriminate Hz].
    apply list_lookup_fmap_Some in Hl. destruct Hl as (x & [= <-] & Hx).
    apply list_elem_of_lookup. exists i. exact Hx.
  - intros Hin. apply list_elem_of_lookup in Hin. destruct Hin as [i Hi].
    apply list_elem_of_lookup. exists i.
    apply lookup_padded_nonzero; [|reflexivity].
    apply list_lookup_fmap_Some. exists S754_nan.
    split; [reflexivity|exact Hi].
Qed.

(** X18. In binary64, a constructed [MultipoleStrengthData] is equal to
    itself exactly when no coefficient given for [kn] or [ks] is NaN. *)
Theorem record_equals_itself_unless_nan (kn ks : list float)
    (polarity : option Z) :
  let m := MultipoleStrengthData.new (Num <$> kn) (Num <$> ks) polarity in
  MultipoleStrengthData.__eq__ m m = Ok true <->
  (S754_nan ∉ kn) /\ (S754_nan ∉ ks).
Proof.
  intros m.
  destruct (new_floats kn ks polarity) as (Hn & Hs & _ & _).
  fold m in Hn, Hs. rewrite (eq_self m Hn Hs).
  assert (Hkn : Num S754_nan ∈ MultipoleStrengthData.kn m <-> S754_nan ∈ kn).
  { subst m.
    unfold MultipoleStrengthData.new, MultipoleStrengthData.__post_init__.
    rewrite update_arrays_unfold. cbn. apply nan_kept. }
  assert (Hks : Num S754_nan ∈ MultipoleStrengthData.ks m <-> S754_nan ∈ ks).
  { subst m.
    unfold MultipoleStrengthData.new, MultipoleStrengthData.__post_init__.
    rewrite update_arrays_unfold. cbn. apply nan_kept. }
  rewrite <- Hkn, <- Hks.
  assert (Hall : forall l : list (pyval float),
             (forall x, Num x ∈ l -> isclose x x = true) <->
             Num S754_nan ∉ l).
  { intros l. split.
    - intros Hc Hnan. apply Hc, isclose_self in Hnan. contradiction.
    - intros Hno x Hx. apply isclose_self. intros ->. contradiction. }
  rewrite !Hall. reflexivity.
Qed.
End ComparisonBinary64.

Section PoleComparison.
Import Binary64.

(** The arrays of a record constructed from floats hold floats. *)
Lemma constructed_floats (c : PoleData.pole) (kn ks : list float)
    (polarity : option Z) (k k_s kmax kmin : option float) :
  let a := PoleData.Lists (Some (Num <$> kn)) (Some (Num <$> ks)) in
  let r := constructed c a polarity k k_s kmax kmin in
  Forall (fun c => is_property c = false) (PoleData.kn r) /\
  Forall (fun c => is_property c = false) (PoleData.ks r).
Proof.
  intros a r.
  destruct (constructed_shape c a polarity k k_s kmax kmin)
    as (o & _ & _ & _ & _ & Hkn & Hks).
  fold r in Hkn, Hks. rewrite Hkn, Hks.
  split; apply floats_padded; unfold effective_kn, effective_ks;
    cbn [PoleData.is_shared PoleData.kn_arg PoleData.ks_arg default
         from_option id];
    (apply Forall_insert; [apply floats_fmap|reflexivity]).
Qed.

(** X19. [==] on quadrupole, sextupole and octupole records does not look
    at [kmax] and [kmin]: in binary64, two records constructed from the
    same arrays, polarity and coefficients compare equal whatever [kmax]
    and [kmin] each was given, provided that no stored coefficient is
    NaN. *)
Theorem pole_eq_ignores_limits (c : PoleData.pole) (kn ks : list float)
    (polarity : option Z) (k k_s kmax kmin kmax' kmin' : option float)
    (r1 r2 : PoleData.t float) :
  let a := PoleData.Lists (Some (Num <$> kn)) (Some (Num <$> ks)) in
  PoleData.new c a polarity k k_s kmax kmin = Ok r1 ->
  PoleData.new c a polarity k k_s kmax' kmin' = Ok r2 ->
  Num S754_nan ∉ PoleData.kn r1 ->
  Num S754_nan ∉ PoleData.ks r1 ->
  PoleData.__eq__ r1 r2 = Ok true.
Proof.
  intros a Hnew1 Hnew2 Hkn Hks.
  apply new_inv in Hnew1. destruct Hnew1 as (_ & _ & ->).
  apply new_inv in Hnew2. destruct Hnew2 as (_ & _ & ->).
  destruct (constructed_floats c kn ks polarity k k_s kmax kmin)
    as [Hfn Hfs]. fold a in Hfn, Hfs.
  unfold PoleData.__eq__.
  change (PoleData.base (constructed c a polarity k k_s kmax' kmin'))
    with (PoleData.base (constructed c a polarity k k_s kmax kmin)).
  apply (eq_self _ Hfn Hfs). split.
  - intros x Hx. apply isclose_self. intros ->. exact (Hkn Hx).
  - intros x Hx. apply isclose_self. intros ->. exact (Hks Hx).
Qed.
End PoleComparison.

(** ** Iteration over the init properties *)

Section Iteration.
Context {num : Type} `{PyFloat num}.

(** X20. The pairs [__iter__] yields determine a constructed record: two
    [ElementPosition] objects (constructed, then assigned to in any way)
    that yield the same pairs are the same object, derived positions
    included, and so are two constructed [MultipoleStrengthData], [order]
    included. *)
Theorem init_properties_determine_record :
  (forall (l1 o1 r1 l2 o2 r2 : option num) (re1 re2 : string)
          (ms1 ms2 : num) (ops1 ops2 : list ElementPosition.assignment),
      let p := ElementPosition.assign_all
                 (ElementPosition.new l1 o1 r1 re1 ms1) ops1 in
      let q := ElementPosition.assign_all
                 (ElementPosition.new l2 o2 r2 re2 ms2) ops2 in
      ElementPosition.__iter__ p = ElementPosition.__iter__ q -> p = q) /\
  (forall (kn1 ks1 kn2 ks2 : list (pyval num)) (p1 p2 : option Z),
      let m1 := MultipoleStrengthData.new kn1 ks1 p1 in
      let m2 := MultipoleStrengthData.new kn2 ks2 p2 in
      MultipoleStrengthData.__iter__ m1 = MultipoleStrengthData.__iter__ m2 ->
      m1 = m2).
Proof.
  split.
  - intros l1 o1 r1 l2 o2 r2 re1 re2 ms1 ms2 ops1 ops2 p q. subst p q.
    rewrite !reachable_state_of.
    destruct (last_assigned _ ops1) as [a1 b1 c1].
    destruct (last_assigned _ ops2) as [a2 b2 c2].
    intros Hiter. injection Hiter as -> -> -> -> ->. reflexivity.
  - intros kn1 ks1 kn2 ks2 p1 p2 m1 m2 Hiter.
    assert (Ho : forall kn ks p,
               MultipoleStrengthData.order (MultipoleStrengthData.new kn ks p)
               = Some (length (MultipoleStrengthData.kn
                                 (MultipoleStrengthData.new kn ks p)))).
    { intros kn ks p.
      unfold MultipoleStrengthData.new, MultipoleStrengthData.__post_init__.
      rewrite update_arrays_unfold. cbn.
      destruct (normalized_le_order kn ks 1) as [Hn _].
      rewrite (length_pad_to _ _ Hn). reflexivity. }
    pose proof (Ho kn1 ks1 p1) as Ho1. pose proof (Ho kn2 ks2 p2) as Ho2.
    fold m1 in Ho1. fold m2 in Ho2. clearbody m1 m2.
    destruct m1 as [a1 b1 c1 d1], m2 as [a2 b2 c2 d2].
    injection Hiter as -> -> ->. cbn in Ho1, Ho2. congruence.
Qed.
End Iteration.

(** ** The further properties at concrete binary64 inputs *)

Import Binary64.

(** [ElementPosition(length=0.1, location=0.7, reference=0.0)] against
    [ElementPosition()] followed by the three assignments, reference
    first. *)
Lemma constructor_is_assignments_witness :
  ElementPosition.new (Some f0_1) (Some f0_7) (Some fzero) "" fzero
  = ElementPosition.assign_all
      (ElementPosition.new None None None "" fzero)
      [ElementPosition.AssignReference fzero;
       ElementPosition.AssignLength f0_1;
       ElementPosition.AssignLocation f0_7].
Proof.
  apply constructor_is_assignments.
  exact (Permutation_cons_append
           [ElementPosition.AssignLength f0_1;
            ElementPosition.AssignLocation f0_7]
           (ElementPosition.AssignReference fzero)).
Defined.

(** [ElementPosition(location=0.7)], of length zero. *)
Lemma zero_length_starts_and_ends_at_centre_witness :
  let p := ElementPosition.new None (Some f0_7) None "" fzero in
  exists c s e : float,
    ElementPosition.position p = Ok c /\ ElementPosition.start p = Ok s /\
    ElementPosition.end_ p = Ok e /\ eqb s c = true /\ eqb e c = true.
Proof.
  intros p.
  destruct (zero_length_starts_and_ends_at_centre None (Some f0_7) None
              "" fzero eq_refl) as (c & s & e & Hc & Hs & He & Hclose).
  exists c, s, e. split; [exact Hc|]. split; [exact Hs|]. split; [exact He|].
  apply Hclose. vm_compute in Hc. injection Hc as <-. discriminate.
Defined.

(** [kn = [0.1, 0.0, -0.0]] against [kn = [0.1]], and [ks = [0.0]] against
    [ks = []]. *)
Lemma trailing_zeros_ignored_witness :
  MultipoleStrengthData.new
    ([Num f0_1] ++ [Num fzero; Num (S754_zero true)]) ([] ++ [Num fzero]) None
  = MultipoleStrengthData.new [Num f0_1] [] None /\
  ThinMultipoleStrengthData.new
    ([Num f0_1] ++ [Num fzero; Num (S754_zero true)]) ([] ++ [Num fzero]) None
  = ThinMultipoleStrengthData.new [Num f0_1] [] None.
Proof.
  apply trailing_zeros_ignored; repeat constructor.
Defined.

(** [MultipoleStrengthData(kn=[0.0, 0.7, 0.0], ks=[0.1])] keeps [0.7] at
    index 1 of [kn]. *)
Lemma coefficients_kept_in_place_witness :
  MultipoleStrengthData.kn
    (MultipoleStrengthData.new [Num fzero; Num f0_7; Num fzero] [Num f0_1]
       None) !! 1
  = Some (Num f0_7).
Proof.
  apply (proj1 (coefficients_kept_in_place
                  [Num fzero; Num f0_7; Num fzero] [Num f0_1] None
                  1 (Num f0_7))); reflexivity.
Defined.

(** [QuadrupoleData(kn=[0.1])] raises, [QuadrupoleData(kn=[0.1, 0.0])]
    returns. *)
Lemma pole_construction_bounds_witness :
  PoleData.new PoleData.Quadrupole (PoleData.Lists (Some [Num f0_1]) None)
    None None None None None = Raise IndexError /\
  exists r,
    PoleData.new PoleData.Quadrupole
      (PoleData.Lists (Some [Num f0_1; Num fzero]) None)
      None None None None None = Ok r.
Proof.
  split.
  - apply (proj1 (proj2 (pole_construction_bounds PoleData.Quadrupole
                           (PoleData.Lists (Some [Num f0_1]) None)
                           None None None None None))).
    left. simpl. lia.
  - apply (proj1 (pole_construction_bounds PoleData.Quadrupole
                    (PoleData.Lists (Some [Num f0_1; Num fzero]) None)
                    None None None None None)).
    simpl. lia.
Defined.

(** [SextupoleData(k2=0.1)]: both arrays have three entries. *)
Lemma pole_arrays_have_order_length_witness :
  exists r,
    PoleData.new PoleData.Sextupole (PoleData.Lists None None) None
      (Some f0_1) None None None = Ok r /\
    exists n : nat,
      PoleData.order r = Some n /\ length (PoleData.kn r) = n /\
      length (PoleData.ks r) = n /\
      PoleData.min_order PoleData.Sextupole <= n.
Proof.
  eexists. split.
  - vm_compute. reflexivity.
  - exact (pole_arrays_have_order_length PoleData.Sextupole
             (PoleData.Lists None None) None (Some f0_1) None None None
             _ eq_refl).
Defined.

(** [QuadrupoleData(kn=[0.0, 0.7], ks=[0.0, 0.0], k1=0.1)]: [k1] is
    [0.1], and [k1s] is [0.0]. *)
Lemma pole_getter_returns_argument_witness :
  exists r,
    PoleData.new PoleData.Quadrupole
      (PoleData.Lists (Some [Num fzero; Num f0_7])
         (Some [Num fzero; Num fzero]))
      None (Some f0_1) None None None = Ok r /\
    exists v w : float,
      PoleData.k PoleData.Quadrupole r = Ok (Num v) /\
      PoleData.k_s PoleData.Quadrupole r = Ok (Num w) /\
      (v = f0_1 \/ eqb f0_1 zero = true /\ v = zero) /\
      (w = fzero \/ eqb fzero zero = true /\ w = zero).
Proof.
  eexists. split.
  - vm_compute. reflexivity.
  - exact (pole_getter_returns_argument PoleData.Quadrupole
             (PoleData.Lists (Some [Num fzero; Num f0_7])
                (Some [Num fzero; Num fzero]))
             None (Some f0_1) None None None _ eq_refl).
Defined.

(** [OctupoleData(k3=0.1, kmax=0.7)], rebuilt from what it exposes. *)
Lemma pole_rebuilt_from_properties_witness :
  exists r,
    PoleData.new PoleData.Octupole (PoleData.Lists None None) None
      (Some f0_1) None (Some f0_7) None = Ok r /\
    exists v w : float,
      PoleData.k PoleData.Octupole r = Ok (Num v) /\
      PoleData.k_s PoleData.Octupole r = Ok (Num w) /\
      PoleData.new PoleData.Octupole
        (PoleData.Lists (Some (PoleData.kn r)) (Some (PoleData.ks r)))
        (PoleData.polarity r) (Some v) (Some w) (PoleData.kmax r)
        (PoleData.kmin r)
      = Ok r.
Proof.
  eexists. split.
  - vm_compute. reflexivity.
  - exact (pole_rebuilt_from_properties PoleData.Octupole
             (PoleData.Lists None None) None (Some f0_1) None (Some f0_7)
             None _ eq_refl).
Defined.

(** [q = QuadrupoleData(); q.k1 = 0.7]. *)
Lemma pole_setter_then_getter_witness :
  exists r,
    PoleData.new PoleData.Quadrupole (PoleData.Lists None None) None
      None None None None = Ok r /\
    exists r' : PoleData.t float,
      PoleData.set_k PoleData.Quadrupole (Num f0_7) r = Ok r' /\
      PoleData.k PoleData.Quadrupole r' = Ok (Num f0_7) /\
      (forall j : nat,
          j <> PoleData.index PoleData.Quadrupole ->
          PoleData.kn r' !! j = PoleData.kn r !! j) /\
      PoleData.ks r' = PoleData.ks r /\
      PoleData.kmax r' = PoleData.kmax r /\
      PoleData.kmin r' = PoleData.kmin r /\
      PoleData.order r' = PoleData.order r /\
      PoleData.order r'
      = Some (coefficient_count (PoleData.kn r') (PoleData.ks r')
                `max` PoleData.min_order PoleData.Quadrupole).
Proof.
  eexists. split.
  - vm_compute. reflexivity.
  - exact (pole_setter_then_getter PoleData.Quadrupole
             (PoleData.Lists None None) None None None None None _ f0_7
             eq_refl).
Defined.

(** [MultipoleStrengthData(kn=[0.1], ks=[])] and
    [MultipoleStrengthData(kn=[0.1, 0.0], ks=[0.0])] are equal, and have
    the same order. *)
Lemma equal_records_same_shape_witness :
  let m1 := MultipoleStrengthData.new (Num <$> [f0_1]) (Num <$> []) None in
  let m2 := MultipoleStrengthData.new (Num <$> [f0_1; fzero])
              (Num <$> [fzero]) None in
  MultipoleStrengthData.__eq__ m1 m2 = Ok true /\
  MultipoleStrengthData.order m1 = MultipoleStrengthData.order m2.
Proof.
  intros m1 m2.
  assert (Heq : MultipoleStrengthData.__eq__ m1 m2 = Ok true)
    by (vm_compute; reflexivity).
  split; [exact Heq|].
  exact (proj2 (proj2 (equal_records_same_shape [f0_1] [] [f0_1; fzero]
                         [fzero] None None) Heq)).
Defined.

(** [QuadrupoleData(k1=0.1, kmax=1.0)] and
    [QuadrupoleData(k1=0.1, kmax=2.0, kmin=0.7)], both with
    [kn = ks = [0.0, 0.0]]. *)
Lemma pole_eq_ignores_limits_witness :
  let a := PoleData.Lists (Some (Num <$> [fzero; fzero]))
             (Some (Num <$> [fzero; fzero])) in
  exists r1 r2,
    PoleData.new PoleData.Quadrupole a None (Some f0_1) None (Some fone) None
    = Ok r1 /\
    PoleData.new PoleData.Quadrupole a None (Some f0_1) None (Some ftwo)
      (Some f0_7) = Ok r2 /\
    PoleData.__eq__ r1 r2 = Ok true.
Proof.
  intros a. eexists _, _.
  split; [vm_compute; reflexivity|].
  split; [vm_compute; reflexivity|].
  refine (pole_eq_ignores_limits PoleData.Quadrupole [fzero; fzero]
            [fzero; fzero] None (Some f0_1) None (Some fone) None
            (Some ftwo) (Some f0_7) _ _ eq_refl eq_refl _ _).
  - intros Hin. apply list_elem_of_In in Hin. vm_compute in Hin.
    intuition discriminate.
  - intros Hin. apply list_elem_of_In in Hin. vm_compute in Hin.
    intuition discriminate.
Defined.

(** [ElementPosition(length=0.1, location=0.7)] and an [ElementPosition()]
    assigned the same two values yield the same pairs. *)
Lemma init_properties_determine_record_witness :
  ElementPosition.assign_all
    (ElementPosition.new (Some f0_1) (Some f0_7) None "" fzero) []
  = ElementPosition.assign_all
      (ElementPosition.new None None None "" fzero)
      [ElementPosition.AssignLength f0_1; ElementPosition.AssignLocation f0_7].
Proof.
  apply (proj1 init_properties_determine_record
           (Some f0_1) (Some f0_7) None None None None "" "" fzero fzero
           [] [ElementPosition.AssignLength f0_1;
               ElementPosition.AssignLocation f0_7]).
  vm_compute. reflexivity.
Defined.

(** ** The value of a binary64 number *)

Section Binary64Values.
Import Binary64.

Lemma two_power_nonzero (e : Z) : ~ (Qpower 2 e == 0)%Q.
Proof. apply Qpower_not_0. discriminate. Qed.

(** Two scaled integers with the same value. *)
Lemma value_scale (a b e1 e2 : Z) :
  (e1 <= e2)%Z ->
  (inject_Z a * Qpower 2 e1 == inject_Z b * Qpower 2 e2)%Q ->
  a = (b * 2 ^ (e2 - e1))%Z.
Proof.
  intros Hle Heq.
  assert (Hsplit : (Qpower 2 e2 == Qpower 2 (e2 - e1) * Qpower 2 e1)%Q).
  { rewrite <- Qpower_plus by discriminate.
    replace (e2 - e1 + e1)%Z with e2 by lia. reflexivity. }
  rewrite Hsplit, Qmult_assoc in Heq.
  apply Qmult_inj_r in Heq; [|apply two_power_nonzero].
  change 2%Q with (inject_Z 2) in Heq.
  rewrite <- Zpower_Qpower, <- inject_Z_mult in Heq by lia.
  exact (proj1 (inject_Z_injective _ _) Heq).
Qed.

Lemma shiftl_nat_value (m : positive) (d : nat) :
  Z.pos (Pos.shiftl_nat m d) = (Z.pos m * 2 ^ Z.of_nat d)%Z /\
  Z.pos (digits2_pos (Pos.shiftl_nat m d))
  = (Z.pos (digits2_pos m) + Z.of_nat d)%Z.
Proof.
  induction d as [|d [IHv IHd]].
  - simpl. split; lia.
  - change (Pos.shiftl_nat m (S d)) with (xO (Pos.shiftl_nat m d)).
    rewrite Nat2Z.inj_succ, Z.pow_succ_r by lia. split.
    + rewrite Pos2Z.inj_xO, IHv. lia.
    + simpl digits2_pos. rewrite Pos2Z.inj_succ, IHd. lia.
Qed.

(** A number has one canonical mantissa and exponent. *)
Lemma canonical_unique_le (m1 m2 : positive) (e1 e2 : Z) :
  (e1 <= e2)%Z ->
  canonical_mantissa prec emax m1 e1 = true ->
  canonical_mantissa prec emax m2 e2 = true ->
  Z.pos m1 = (Z.pos m2 * 2 ^ (e2 - e1))%Z ->
  m1 = m2 /\ e1 = e2.
Proof.
  intros Hle Hc1 Hc2 Hval.
  destruct (shiftl_nat_value m2 (Z.to_nat (e2 - e1))) as [Hv Hd].
  rewrite Z2Nat.id in Hv, Hd by lia.
  rewrite <- Hv in Hval. injection Hval as ->.
  unfold canonical_mantissa in Hc1, Hc2.
  apply Z.eqb_eq in Hc1, Hc2. rewrite Hd in Hc1.
  replace (Z.pos (digits2_pos m2) + (e2 - e1) + e1)%Z
    with (Z.pos (digits2_pos m2) + e2)%Z in Hc1 by lia.
  assert (He : e1 = e2) by congruence. subst e2.
  rewrite Z.sub_diag. split; reflexivity.
Qed.

Lemma signed_scale (s1 s2 : bool) (m1 m2 : positive) (d : Z) :
  (0 <= d)%Z ->
  cond_Zopp s1 (Z.pos m1) = (cond_Zopp s2 (Z.pos m2) * 2 ^ d)%Z ->
  s1 = s2 /\ Z.pos m1 = (Z.pos m2 * 2 ^ d)%Z.
Proof.
  intros Hd Heq.
  assert (Hpos : (0 < Z.pos m2 * 2 ^ d)%Z)
    by (apply Z.mul_pos_pos; [lia|apply Z.pow_pos_nonneg; lia]).
  destruct s1, s2; simpl in Heq; rewrite ?Z.mul_opp_l in Heq;
    split; try reflexivity; lia.
Qed.

Lemma finite_value_unique (s1 s2 : bool) (m1 m2 : positive) (e1 e2 : Z) :
  valid_binary prec emax (S754_finite s1 m1 e1) = true ->
  valid_binary prec emax (S754_finite s2 m2 e2) = true ->
  (F2Q (S754_finite s1 m1 e1) == F2Q (S754_finite s2 m2 e2))%Q ->
  S754_finite s1 m1 e1 = S754_finite s2 m2 e2.
Proof.
  unfold valid_binary, bounded. intros Hv1 Hv2 Heq.
  apply andb_true_iff in Hv1, Hv2.
  destruct Hv1 as [Hc1 _], Hv2 as [Hc2 _]. unfold F2Q in Heq.
  destruct (Z.le_ge_cases e1 e2) as [Hle|Hle].
  - apply value_scale in Heq; [|exact Hle].
    apply signed_scale in Heq; [|lia]. destruct Heq as [-> Hval].
    destruct (canonical_unique_le m1 m2 e1 e2 Hle Hc1 Hc2 Hval) as [-> ->].
    reflexivity.
  - symmetry in Heq. apply value_scale in Heq; [|exact Hle].
    apply signed_scale in Heq; [|lia]. destruct Heq as [-> Hval].
    destruct (canonical_unique_le m2 m1 e2 e1 Hle Hc2 Hc1 Hval) as [-> ->].
    reflexivity.
Qed.

Lemma finite_value_nonzero (s : bool) (m : positive) (e : Z) :
  ~ (F2Q (S754_finite s m e) == 0)%Q.
Proof.
  unfold F2Q. intros Heq.
  apply Qmult_integral in Heq. destruct Heq as [Heq|Heq].
  - change 0%Q with (inject_Z 0) in Heq.
    apply (proj1 (inject_Z_injective _ _)) in Heq.
    destruct s; discriminate Heq.
  - exact (two_power_nonzero e Heq).
Qed.

(** Two exact results with the same value compare equal. *)
Lemma exact_eqb (r1 r2 : float) (q1 q2 : Q) :
  exact r1 q1 -> exact r2 q2 -> (q1 == q2)%Q -> eqb r1 r2 = true.
Proof.
  intros (Hf1 & Hv1 & Hq1) (Hf2 & Hv2 & Hq2) Hq.
  assert (Hsame : (F2Q r1 == F2Q r2)%Q) by (rewrite Hq1, Hq2; exact Hq).
  destruct r1 as [s1| | |s1 m1 e1]; try discriminate Hf1;
    destruct r2 as [s2| | |s2 m2 e2]; try discriminate Hf2.
  - reflexivity.
  - symmetry in Hsame. destruct (finite_value_nonzero _ _ _ Hsame).
  - destruct (finite_value_nonzero _ _ _ Hsame).
  - rewrite (finite_value_unique _ _ _ _ _ _ Hv1 Hv2 Hsame).
    apply binary64_eqb_refl. discriminate.
Qed.
End Binary64Values.

(** ** [ElementPosition]: the position identities in binary64 *)

Section PositionExactOperations.
Import Binary64.

(** C2, in binary64. For every [ElementPosition] constructed from a
    length, a location and a reference, [start + length == end] holds
    whenever the four operations involved round nothing: [length/2.],
    [(location + reference) - length/2.], [(location + reference) +
    length/2.] and [start + length] each return a finite binary64 number
    that is the exact result. *)
Theorem start_plus_length_is_end_when_exact
    (length location reference : option float) (re : string) (ms : float) :
  let len := default zero length in
  let pos := add (default zero location) (default zero reference) in
  let half := div len two in
  exact half (F2Q len / 2) ->
  exact (sub pos half) (F2Q pos - F2Q half) ->
  exact (add pos half) (F2Q pos + F2Q half) ->
  exact (add (sub pos half) len) (F2Q (sub pos half) + F2Q len) ->
  start_plus_length_is_end
    (ElementPosition.new length location reference re ms).
Proof.
  intros len pos half Hhalf Hstart Hend Hsum.
  rewrite new_state_of.
  destruct (state_of_getters re ms
              (initial_fields length location reference)) as (_ & Hs & He).
  exists (sub pos half), (add pos half), len.
  split; [exact Hs|]. split; [exact He|]. split; [reflexivity|].
  apply (exact_eqb _ _ _ _ Hsum Hend).
  destruct Hstart as (_ & _ & ->). destruct Hhalf as (_ & _ & ->).
  field.
Qed.

(** C3, in binary64. For every [ElementPosition] constructed from a
    length, a location and a reference whose sum [location + reference] is
    a finite binary64 number, [position == (start + end) / 2] holds
    whenever the four operations involved round nothing:
    [(location + reference) - length/2.], [(location + reference) +
    length/2.], [start + end] and [(start + end) / 2] each return a finite
    binary64 number that is the exact result. *)
Theorem position_is_midpoint_when_exact
    (length location reference : option float) (re : string) (ms : float) :
  let len := default zero length in
  let pos := add (default zero location) (default zero reference) in
  let half := div len two in
  let s := sub pos half in
  let e := add pos half in
  is_finite pos = true ->
  valid_binary prec emax pos = true ->
  exact s (F2Q pos - F2Q half) ->
  exact e (F2Q pos + F2Q half) ->
  exact (add s e) (F2Q s + F2Q e) ->
  exact (div (add s e) two) ((F2Q s + F2Q e) / 2) ->
  position_is_midpoint
    (ElementPosition.new length location reference re ms).
Proof.
  intros len pos half s e Hfin Hvalid Hstart Hend Hsum Hmid.
  rewrite new_state_of.
  destruct (state_of_getters re ms
              (initial_fields length location reference)) as (Hc & Hs & He).
  exists pos, s, e.
  split; [exact Hc|]. split; [exact Hs|]. split; [exact He|].
  assert (Hpos : exact pos (F2Q pos)).
  { split; [exact Hfin|]. split; [exact Hvalid|reflexivity]. }
  apply (exact_eqb _ _ _ _ Hpos Hmid).
  destruct Hstart as (_ & _ & ->). destruct Hend as (_ & _ & ->).
  field.
Qed.
End PositionExactOperations.

(** [ElementPosition(length=2.0, location=1.0)]: [start] is [0.0], [end]
    is [2.0], and no operation rounds. *)
Lemma start_plus_length_is_end_when_exact_witness :
  start_plus_length_is_end
    (ElementPosition.new (Some ftwo) (Some fone) None "" fzero).
Proof.
  apply start_plus_length_is_end_when_exact;
    repeat split; vm_compute; reflexivity.
Defined.

(** The same object: [position] is [1.0], [start + end] is [2.0], and no
    operation rounds. *)
Lemma position_is_midpoint_when_exact_witness :
  position_is_midpoint
    (ElementPosition.new (Some ftwo) (Some fone) None "" fzero).
Proof.
  apply position_is_midpoint_when_exact;
    repeat split; vm_compute; reflexivity.
Defined.
